(** * Configuration scripts of kubeadm-python-cluster, embedded in Rocq

    The repository holds two Python configuration scripts that their host
    applications evaluate once, top to bottom:

    - [docker/jupyterhub/jupyterhub_config.py]   (the hub),
    - [docker/jupyterlab/jupyter_lab_config.py]  (the per-user server).

    Both scripts assign attributes of a configuration object [c], read the
    process environment, and -- for the second one -- touch the user's home
    directory.  They are embedded here as programs of a small state and
    exception monad over the configuration object, the filesystem and the
    two output channels (standard output and the application log).

    Text is modelled by Rocq strings, one character per code point, so the
    model covers the code points below 256. *)

From Stdlib Require Import ZArith NArith Ascii String List Lia.
From stdpp Require Import base gmap strings list fin_maps.

Local Open Scope Z_scope.
Local Set Warnings "-register-all".

(** ** Characters and text *)

Module Text.

Definition code (c : ascii) : N := N_of_ascii c.

(** The ASCII decimal digits. *)
Definition is_digit (c : ascii) : bool :=
  ((48 <=? code c) && (code c <=? 57))%N.

Definition digit_value (c : ascii) : N := (code c - 48)%N.

(** White space as [int()] and [float()] skip it around a numeral: the ASCII
    blanks, and the two further space characters below code point 256
    (next line U+0085 and no-break space U+00A0), which the interpreter turns
    into a blank before it parses. *)
Definition is_space (c : ascii) : bool :=
  let n := code c in
  (((9 <=? n) && (n <=? 13)) || (n =? 32) || (n =? 133) || (n =? 160))%N.

Definition is_empty (s : string) : bool :=
  match s with EmptyString => true | String _ _ => false end.

Fixpoint lstrip (s : string) : string :=
  match s with
  | EmptyString => EmptyString
  | String c r => if is_space c then lstrip r else s
  end.

Fixpoint rstrip (s : string) : string :=
  match s with
  | EmptyString => EmptyString
  | String c r =>
      let r' := rstrip r in
      if is_space c && is_empty r' then EmptyString else String c r'
  end.

Definition strip (s : string) : string := rstrip (lstrip s).

(** Lower-casing of the ASCII letters.  The scripts compare the lower-cased
    text with an ASCII word only, and on that comparison this agrees with
    [str.lower]: a character beyond ASCII stays beyond ASCII either way. *)
Definition lower_char (c : ascii) : ascii :=
  let n := code c in
  if ((65 <=? n) && (n <=? 90))%N then ascii_of_N (n + 32) else c.

Fixpoint lower (s : string) : string :=
  match s with
  | EmptyString => EmptyString
  | String c r => String (lower_char c) (lower r)
  end.

(** [s.split(sep)] for a one-character separator: the pieces between the
    occurrences of [sep]; a text without [sep] (the empty text too) gives
    one piece. *)
Fixpoint split (sep : ascii) (s : string) : list string :=
  match s with
  | EmptyString => [EmptyString]
  | String c r =>
      if Ascii.eqb c sep then EmptyString :: split sep r
      else match split sep r with
           | piece :: rest => String c piece :: rest
           | [] => [String c EmptyString]
           end
  end.

(** [sep.join(pieces)]. *)
Fixpoint join (sep : ascii) (pieces : list string) : string :=
  match pieces with
  | [] => EmptyString
  | [p] => p
  | p :: rest => p +:+ String sep (join sep rest)
  end.

Fixpoint contains_char (c : ascii) (s : string) : bool :=
  match s with
  | EmptyString => false
  | String d r => Ascii.eqb d c || contains_char c r
  end.


(** The longest prefix of digits, and what follows it. *)
Fixpoint span_digits (s : string) : string * string :=
  match s with
  | EmptyString => (EmptyString, EmptyString)
  | String c r =>
      if is_digit c then
        let '(ds, rest) := span_digits r in (String c ds, rest)
      else (EmptyString, s)
  end.

(** Horner evaluation of a run of digits, from the accumulator [acc]. *)
Fixpoint digits_from (acc : N) (s : string) : N :=
  match s with
  | EmptyString => acc
  | String c r => digits_from (10 * acc + digit_value c)%N r
  end.

Definition take_sign (s : string) : bool * string :=
  match s with
  | String "+" r => (false, r)
  | String "-" r => (true, r)
  | _ => (false, s)
  end.

Fixpoint repeat_string (n : nat) (s : string) : string :=
  match n with
  | O => EmptyString
  | S k => s +:+ repeat_string k s
  end.

End Text.

(** ** Python values *)

(** A float is kept as the decimal it was written as (sign, digits and a
    power of ten); the rounding to binary64 is not part of this model. *)
Inductive pyfloat :=
| FNan
| FInf (neg : bool)
| FDec (neg : bool) (mant : N) (exp10 : Z).

Inductive pyval :=
| VNone
| VBool (b : bool)
| VInt (n : Z)
| VFloat (f : pyfloat)
| VStr (s : string)
| VList (l : list pyval)
| VDict (d : list (string * pyval))   (* keys in insertion order *)
| VSet (s : gset string)
| VObj (name : string).               (* a class or function of a library *)

(** Filesystem paths, innermost component first: [/home/jovyan/data] is
    ["data"; "jovyan"; "home"], the root is [[]]. *)
Abbreviation path := (list string).

Inductive oserror :=
| FileNotFoundError
| FileExistsError
| NotADirectoryError
| IsADirectoryError
| PermissionError.

(** The exceptions the scripts can meet.  Every one of them is a subclass of
    Python's [Exception]. *)
Inductive exn :=
| ValueError (fn : string) (arg : string)
| TypeError (what : string)
| AttributeError (what : string)
| RuntimeError (msg : string)
| OSError (kind : oserror) (p : path).

Inductive result (A : Type) :=
| Ok (a : A)
| Raise (e : exn).
Arguments Ok {A} a.
Arguments Raise {A} e.

(** ** The built-in conversions [int] and [float] *)

Module Builtins.
Import Text.

(** Digits with single underscores between them, as [int] reads them in
    base 10.  [prev] tells whether the previous character was a digit. *)
Fixpoint int_digits (acc : N) (prev : bool) (s : string) : option N :=
  match s with
  | EmptyString => if prev then Some acc else None
  | String c r =>
      if is_digit c then int_digits (10 * acc + digit_value c)%N true r
      else if Ascii.eqb c "_" then
             if prev then int_digits acc false r else None
      else None
  end.

(** The digits [int] converts from decimal text are capped: the
    interpreter's default is 4300, and none of the scripts changes it.  The
    sign, the blanks and the underscores do not count; leading zeros do. *)
Definition int_max_str_digits : N := 4300.

Fixpoint count_digits (s : string) : N :=
  match s with
  | EmptyString => 0
  | String c r => ((if is_digit c then 1 else 0) + count_digits r)%N
  end.

(** [int(s)] on text: blanks around, an optional sign, then the digits.
    [None] stands for the [ValueError] of a text that is no numeral, and of
    a numeral with more digits than the cap. *)
Definition int_of_str (s : string) : option Z :=
  let '(neg, body) := take_sign (strip s) in
  if (int_max_str_digits <? count_digits body)%N then None
  else
    match int_digits 0%N false body with
    | Some n => Some (if neg then - Z.of_N n else Z.of_N n)
    | None => None
    end.

(** Underscores in the text given to [float]: each one stands between two
    digits.  [prev] is the previous character, if any. *)
Fixpoint underscores_ok (prev : option ascii) (s : string) : bool :=
  match s with
  | EmptyString =>
      match prev with Some "_"%char => false | _ => true end
  | String c r =>
      (if Ascii.eqb c "_" then
         match prev with Some p => is_digit p | None => false end
       else
         match prev with Some "_"%char => is_digit c | _ => true end)
      && underscores_ok (Some c) r
  end.

Fixpoint drop_underscores (s : string) : string :=
  match s with
  | EmptyString => EmptyString
  | String c r =>
      if Ascii.eqb c "_" then drop_underscores r
      else String c (drop_underscores r)
  end.

(** A float numeral without underscores:
    [sign] (inf | infinity | nan), or
    [sign] (digits [. [digits]] | . digits) [(e|E) [sign] digits]. *)
Definition float_plain (s : string) : option pyfloat :=
  let '(neg, s1) := take_sign s in
  let w := lower s1 in
  if String.eqb w "inf" || String.eqb w "infinity" then Some (FInf neg)
  else if String.eqb w "nan" then Some FNan
  else
    let '(ip, s2) := span_digits s1 in
    let '(fp, s3) :=
      match s2 with
      | String "." r => span_digits r
      | _ => (EmptyString, s2)
      end in
    if is_empty ip && is_empty fp then None
    else
      let mant := digits_from 0%N (ip +:+ fp) in
      let shift := Z.of_nat (String.length fp) in
      match s3 with
      | EmptyString => Some (FDec neg mant (- shift))
      | String c r =>
          if Ascii.eqb (lower_char c) "e" then
            let '(eneg, r1) := take_sign r in
            let '(ed, r2) := span_digits r1 in
            if is_empty ed || negb (is_empty r2) then None
            else
              let e := Z.of_N (digits_from 0%N ed) in
              Some (FDec neg mant ((if eneg then - e else e) - shift))
          else None
      end.

(** [float(s)] on text.  The value is kept as the decimal the text denotes:
    the rounding to a binary double is not in the model, so a text beyond the
    range of doubles is not turned into an infinity here, and two texts of
    one double (['1'] and ['1.0']) are two values.  What the scripts do with
    a float is to assign it; whether the text parses is all they depend on. *)
Definition float_of_str (s : string) : option pyfloat :=
  let t := strip s in
  if underscores_ok None t then float_plain (drop_underscores t) else None.

(** [int(v)]: an integer is returned as it is, text is parsed. *)
Definition py_int (v : pyval) : result Z :=
  match v with
  | VInt n => Ok n
  | VBool b => Ok (if b then 1 else 0)
  | VStr s =>
      match int_of_str s with
      | Some n => Ok n
      | None => Raise (ValueError "int" s)
      end
  | _ => Raise (TypeError "int() argument must be a string or a real number")
  end.

(** [float(v)] for the arguments the scripts give it: text. *)
Definition py_float (v : pyval) : result pyfloat :=
  match v with
  | VFloat f => Ok f
  | VInt n => Ok (FDec (n <? 0) (Z.to_N (Z.abs n)) 0)
  | VBool b => Ok (FDec false (if b then 1%N else 0%N) 0)
  | VStr s =>
      match float_of_str s with
      | Some f => Ok f
      | None => Raise (ValueError "float" s)
      end
  | _ => Raise (TypeError "float() argument must be a string or a real number")
  end.

End Builtins.

(** ** The process, its state and the evaluation monad *)

(** What a script finds around it: the process environment ([os.environ]),
    the home directory the operating system reports for the user
    ([Path.home()], [None] when it cannot be determined), the paths at which
    the operating system refuses to create or write an entry, and the
    reading of the clock. *)
Record Host := {
  environ : gmap string string;
  home_dir : option path;
  denied : path → bool;
  now : string;
}.

Inductive content :=
| Text (s : string)
| Json (v : pyval) (indent : nat).   (* the text [json.dump(v, f, indent)] writes *)

Inductive node :=
| Dir
| File (body : content).

(** The pieces of a formatted line: literal text, and the values and
    exceptions an f-string interpolates. *)
Inductive piece :=
| Lit (s : string)
| Val (v : pyval)
| Err (e : exn).

Abbreviation line := (list piece).

Record State := {
  cfg : gmap string pyval;     (* the configuration object [c], by "Class.attr" *)
  fs : gmap path node;         (* the filesystem *)
  out : list line;             (* standard output, oldest line first *)
  log : list line;             (* the application log, oldest line first *)
}.

Definition set_cfg (f : gmap string pyval → gmap string pyval) (s : State) : State :=
  {| cfg := f (cfg s); fs := fs s; out := out s; log := log s |}.
Definition set_fs (f : gmap path node → gmap path node) (s : State) : State :=
  {| cfg := cfg s; fs := f (fs s); out := out s; log := log s |}.
Definition add_out (l : line) (s : State) : State :=
  {| cfg := cfg s; fs := fs s; out := out s ++ [l]; log := log s |}.
Definition add_log (l : line) (s : State) : State :=
  {| cfg := cfg s; fs := fs s; out := out s; log := log s ++ [l] |}.

(** A statement runs from a state to a state and either a value or a raised
    exception; what was done before the exception stays done. *)
Definition M (A : Type) : Type := State → State * result A.

Definition ret {A} (a : A) : M A := fun s => (s, Ok a).
Definition raise {A} (e : exn) : M A := fun s => (s, Raise e).
Definition bind {A B} (m : M A) (k : A → M B) : M B :=
  fun s => match m s with
           | (s', Ok a) => k a s'
           | (s', Raise e) => (s', Raise e)
           end.
Definition lift {A} (r : result A) : M A := fun s => (s, r).

(** [try: body / except Exception as e: handler(e)].  Every exception of
    this model is an [Exception], so the handler takes them all. *)
Definition try_except {A} (body : M A) (handler : exn → M A) : M A :=
  fun s => match body s with
           | (s', Ok a) => (s', Ok a)
           | (s', Raise e) => handler e s'
           end.

Declare Scope py_scope.
Delimit Scope py_scope with py.
Notation "x <- m ;; k" := (bind m (fun x => k))
  (at level 100, m at next level, right associativity) : py_scope.
Notation "m ;; k" := (bind m (fun _ => k))
  (at level 100, right associativity) : py_scope.
Local Open Scope py_scope.

(** [c.Class.attr = v] *)
Definition assign (key : string) (v : pyval) : M unit :=
  fun s => (set_cfg (insert key v) s, Ok tt).

(** [c.Class.attr] read back.  An attribute never assigned reads as the
    configuration library's placeholder object. *)
Definition attr (key : string) : M pyval :=
  fun s => (s, Ok (default (VObj "LazyConfigValue") (cfg s !! key))).

Definition print (l : line) : M unit := fun s => (add_out l s, Ok tt).
Definition log_info (l : line) : M unit := fun s => (add_log l s, Ok tt).

(** [if cond: body] *)
Definition when (cond : bool) (body : M unit) : M unit :=
  if cond then body else ret tt.

(** [os.environ.get(name)]: [None] stands for Python's [None]. *)
Definition environ_get (h : Host) (name : string) : option string :=
  environ h !! name.

(** [os.environ.get(name, fallback)] with a text fallback. *)
Definition environ_get_or (h : Host) (name fallback : string) : string :=
  default fallback (environ h !! name).

(** [os.environ.get(name, fallback)] with any fallback value. *)
Definition environ_get_val (h : Host) (name : string) (fallback : pyval) : pyval :=
  match environ h !! name with
  | Some s => VStr s
  | None => fallback
  end.

Definition opt_val (o : option string) : pyval :=
  match o with Some s => VStr s | None => VNone end.

(** Truth value of [os.environ.get(name)] in a condition: [None] and the
    empty text are false. *)
Definition truthy (o : option string) : bool :=
  match o with
  | Some s => negb (Text.is_empty s)
  | None => false
  end.

Definition nl : string := String (ascii_of_nat 10) EmptyString.
Definition dq : string := String (ascii_of_nat 34) EmptyString.
Definition bs : string := String (ascii_of_nat 92) EmptyString.

(** A float literal of the source, by digits and power of ten. *)
Definition flt (mant : N) (exp10 : Z) : pyval := VFloat (FDec false mant exp10).

(** ** [jupyterhub_config.py] *)

Module Hub.

Definition KubeSpawner : pyval := VObj "<class 'kubespawner.spawner.KubeSpawner'>".
Definition logging_INFO : Z := 20.
Definition logging_DEBUG : Z := 10.

(** Lines 16-27: server, database, cookie secret and admin users. *)
Definition basic (h : Host) : M unit :=
  assign "JupyterHub.hub_ip" (VStr "0.0.0.0") ;;
  assign "JupyterHub.hub_port" (VInt 8081) ;;
  assign "JupyterHub.port" (VInt 8000) ;;
  assign "JupyterHub.db_url"
    (VStr (environ_get_or h "JUPYTERHUB_DB_URL" "sqlite:///jupyterhub.sqlite")) ;;
  assign "JupyterHub.cookie_secret_file"
    (VStr "/srv/jupyterhub/jupyterhub_cookie_secret") ;;
  assign "Authenticator.admin_users"
    (VSet (list_to_set
             (Text.split "," (environ_get_or h "JUPYTERHUB_ADMIN_USERS" "admin")))).

Definition volume_mounts : pyval :=
  VList [ VDict [ ("name", VStr "home");
                  ("mountPath", VStr "/home/jovyan");
                  ("subPath", VStr "home/{username}") ] ].

Definition volumes (claim : pyval) : pyval :=
  VList [ VDict [ ("name", VStr "home");
                  ("persistentVolumeClaim", VDict [ ("claimName", claim) ]) ] ].

(** Lines 34-86: the spawner, its resources, storage and environment. *)
Definition kubernetes (h : Host) : M unit :=
  assign "JupyterHub.spawner_class" KubeSpawner ;;
  assign "KubeSpawner.namespace"
    (VStr (environ_get_or h "JUPYTERHUB_NAMESPACE" "jupyterhub")) ;;
  assign "KubeSpawner.service_account" (VStr "jupyterhub") ;;
  assign "KubeSpawner.image_spec"
    (VStr (environ_get_or h "JUPYTERHUB_SINGLEUSER_IMAGE"
             "kubeadm-python-cluster/jupyterlab:3.11")) ;;
  cpu_limit <- lift (Builtins.py_float
                       (VStr (environ_get_or h "JUPYTERHUB_CPU_LIMIT" "1.0"))) ;;
  assign "KubeSpawner.cpu_limit" (VFloat cpu_limit) ;;
  assign "KubeSpawner.mem_limit"
    (VStr (environ_get_or h "JUPYTERHUB_MEM_LIMIT" "2G")) ;;
  cpu_guarantee <- lift (Builtins.py_float
                           (VStr (environ_get_or h "JUPYTERHUB_CPU_GUARANTEE" "0.5"))) ;;
  assign "KubeSpawner.cpu_guarantee" (VFloat cpu_guarantee) ;;
  assign "KubeSpawner.mem_guarantee"
    (VStr (environ_get_or h "JUPYTERHUB_MEM_GUARANTEE" "1G")) ;;
  assign "KubeSpawner.pvc_name_template" (VStr "jupyterhub-user-{username}") ;;
  assign "KubeSpawner.volume_mounts" volume_mounts ;;
  claim <- attr "KubeSpawner.pvc_name_template" ;;
  assign "KubeSpawner.volumes" (volumes claim) ;;
  assign "KubeSpawner.storage_capacity"
    (VStr (environ_get_or h "JUPYTERHUB_STORAGE_CAPACITY" "5Gi")) ;;
  assign "KubeSpawner.storage_class"
    (VStr (environ_get_or h "JUPYTERHUB_STORAGE_CLASS" "standard")) ;;
  assign "KubeSpawner.environment"
    (VDict [ ("JUPYTER_ENABLE_LAB", VStr "1");
             ("GRANT_SUDO", VStr "yes");
             ("NB_UID", VStr "1000");
             ("NB_GID", VStr "1000");
             ("CHOWN_HOME", VStr "yes");
             ("PYTHONPATH", VStr "/usr/local/lib/python3.11/site-packages") ]) ;;
  assign "KubeSpawner.security_context"
    (VDict [ ("runAsUser", VInt 1000);
             ("runAsGroup", VInt 1000);
             ("fsGroup", VInt 1000) ]).

(** Lines 96-98: the authenticator. *)
Definition authentication (h : Host) : M unit :=
  assign "JupyterHub.authenticator_class"
    (VStr "nativeauthenticator.NativeAuthenticator") ;;
  assign "NativeAuthenticator.create_users" (VBool true) ;;
  assign "NativeAuthenticator.enable_signup"
    (VBool (String.eqb
              (Text.lower (environ_get_or h "JUPYTERHUB_ENABLE_SIGNUP" "True"))
              "true")).

Definition override (image : string) (cpu_limit : pyval) (mem_limit : string)
    (cpu_guarantee : pyval) (mem_guarantee : string)
    (extra : list (string * pyval)) : pyval :=
  VDict ([ ("image_spec", VStr image);
           ("cpu_limit", cpu_limit);
           ("mem_limit", VStr mem_limit);
           ("cpu_guarantee", cpu_guarantee);
           ("mem_guarantee", VStr mem_guarantee) ] ++ extra).

(** Lines 111-174: the five profiles. *)
Definition profile_list : list pyval :=
  [ VDict [ ("display_name", VStr "Python 3.11 (Default)");
            ("description", VStr "Latest Python with modern libraries");
            ("default", VBool true);
            ("kubespawner_override",
             override "kubeadm-python-cluster/jupyterlab:3.11"
               (flt 10 (-1)) "2G" (flt 5 (-1)) "1G" []) ];
    VDict [ ("display_name", VStr "Python 3.10");
            ("description", VStr "Python 3.10 with stable libraries");
            ("kubespawner_override",
             override "kubeadm-python-cluster/jupyterlab:3.10"
               (flt 10 (-1)) "2G" (flt 5 (-1)) "1G" []) ];
    VDict [ ("display_name", VStr "Python 3.9");
            ("description", VStr "Python 3.9 with compatible libraries");
            ("kubespawner_override",
             override "kubeadm-python-cluster/jupyterlab:3.9"
               (flt 10 (-1)) "2G" (flt 5 (-1)) "1G" []) ];
    VDict [ ("display_name", VStr "Python 3.8 (Legacy)");
            ("description", VStr "Python 3.8 for legacy compatibility");
            ("kubespawner_override",
             override "kubeadm-python-cluster/jupyterlab:3.8"
               (flt 8 (-1)) "1.5G" (flt 3 (-1)) "0.5G" []) ];
    VDict [ ("display_name", VStr "High-Performance Computing");
            ("description",
             VStr "Python 3.11 with extended resources for compute-intensive tasks");
            ("kubespawner_override",
             override "kubeadm-python-cluster/jupyterlab:3.11"
               (flt 20 (-1)) "4G" (flt 10 (-1)) "2G"
               [ ("environment",
                  VDict [ ("JUPYTER_ENABLE_LAB", VStr "1");
                          ("GRANT_SUDO", VStr "yes");
                          ("OMP_NUM_THREADS", VStr "2");
                          ("NUMBA_NUM_THREADS", VStr "2") ]) ]) ] ].

Definition profiles : M unit :=
  assign "KubeSpawner.profile_list" (VList profile_list).

(** Lines 180-184. *)
Definition logging : M unit :=
  assign "JupyterHub.log_level" (VInt logging_INFO) ;;
  assign "JupyterHub.log_format"
    (VStr "[%(levelname)s %(asctime)s.%(msecs)03d %(name)s %(module)s:%(lineno)d] %(message)s") ;;
  assign "JupyterHub.extra_log_file" (VStr "/var/log/jupyterhub/jupyterhub.log").

Definition idle_culler : pyval :=
  VDict [ ("name", VStr "idle-culler");
          ("command",
           VList [ VStr "python3"; VStr "-m"; VStr "jupyterhub_idle_culler";
                   VStr "--timeout=3600"; VStr "--max-age=7200";
                   VStr "--remove-named-servers"; VStr "--cull-users" ]);
          ("admin", VBool true) ].

(** Lines 191-203. *)
Definition services : M unit :=
  assign "JupyterHub.services" (VList [ idle_culler ]).

(** Lines 209-217. *)
Definition ui (h : Host) : M unit :=
  assign "JupyterHub.logo_file" (VStr "/etc/jupyterhub/static/logo.png") ;;
  assign "JupyterHub.template_paths" (VList [ VStr "/etc/jupyterhub/templates" ]) ;;
  assign "JupyterHub.template_vars"
    (VDict [ ("announcement", VStr (environ_get_or h "JUPYTERHUB_ANNOUNCEMENT" ""));
             ("org_name", VStr "kubeadm-python-cluster");
             ("org_url", VStr "#") ]).

(** Lines 224-228. *)
Definition network : M unit :=
  assign "JupyterHub.cleanup_servers" (VBool true) ;;
  assign "JupyterHub.cleanup_proxy" (VBool true) ;;
  assign "JupyterHub.activity_resolution" (VInt 30).

(** Lines 235-238: TLS, only when a certificate is named. *)
Definition tls (h : Host) : M unit :=
  when (truthy (environ_get h "JUPYTERHUB_SSL_CERT"))
    (assign "JupyterHub.ssl_cert" (opt_val (environ_get h "JUPYTERHUB_SSL_CERT")) ;;
     assign "JupyterHub.ssl_key" (opt_val (environ_get h "JUPYTERHUB_SSL_KEY")) ;;
     assign "JupyterHub.redirect_to_server" (VBool false)).

(** Lines 241-245. *)
Definition security (h : Host) : M unit :=
  tls h ;;
  assign "JupyterHub.tornado_settings"
    (VDict [ ("headers",
              VDict [ ("Content-Security-Policy",
                       VStr "default-src 'self'; img-src 'self' data:; style-src 'self' 'unsafe-inline'; script-src 'self' 'unsafe-inline' 'unsafe-eval'") ]) ]).

(** Lines 272-273: the two hooks are handed to the spawner. *)
Definition hooks : M unit :=
  assign "KubeSpawner.pre_spawn_hook" (VObj "<function pre_spawn_hook>") ;;
  assign "KubeSpawner.post_stop_hook" (VObj "<function post_stop_hook>").

(** Lines 280-282: the debug switch. *)
Definition debug_switch (h : Host) : M unit :=
  when (String.eqb (Text.lower (environ_get_or h "JUPYTERHUB_DEBUG" "False")) "true")
    (assign "JupyterHub.log_level" (VInt logging_DEBUG) ;;
     assign "Application.log_level" (VInt logging_DEBUG)).

(** A logger, for a configuration that was handed one at [JupyterHub.log].
    The script assigns none. *)
Definition Logger : pyval := VObj "<logging.Logger>".

Definition is_logger (v : pyval) : bool :=
  match v with
  | VObj name => String.eqb name "<logging.Logger>"
  | _ => false
  end.

(** [target.info]: the attribute lookup that precedes the call.  Of the
    values of the model only a logger has the method; the placeholder an
    unassigned attribute reads as has not, and the lookup raises. *)
Definition info_method (target : pyval) : M unit :=
  if is_logger target then ret tt else raise (AttributeError "info").

(** Lines 285-288: the startup messages, [c.JupyterHub.log.info(...)].  In
    each statement the method is looked up first, then the argument is
    formatted, then the call is made. *)
Definition startup_messages : M unit :=
  target <- attr "JupyterHub.log" ;;
  info_method target ;;
  log_info [ Lit "JupyterHub for kubeadm-python-cluster starting up..." ] ;;
  target <- attr "JupyterHub.log" ;;
  info_method target ;;
  spawner_class <- attr "JupyterHub.spawner_class" ;;
  log_info [ Lit "Using spawner: "; Val spawner_class ] ;;
  target <- attr "JupyterHub.log" ;;
  info_method target ;;
  db_url <- attr "JupyterHub.db_url" ;;
  log_info [ Lit "Database URL: "; Val db_url ] ;;
  target <- attr "JupyterHub.log" ;;
  info_method target ;;
  namespace <- attr "KubeSpawner.namespace" ;;
  log_info [ Lit "Kubernetes namespace: "; Val namespace ].

(** Lines 280-288. *)
Definition debugging (h : Host) : M unit :=
  debug_switch h ;;
  startup_messages.

Definition health_script : string :=
  nl +:+ "import json" +:+ nl +:+
  "import tornado.web" +:+ nl +:+
  "import tornado.ioloop" +:+ nl +:+
  "from tornado.httpserver import HTTPServer" +:+ nl +:+ nl +:+
  "class HealthHandler(tornado.web.RequestHandler):" +:+ nl +:+
  "    def get(self):" +:+ nl +:+
  "        self.write({" +:+ dq +:+ "status" +:+ dq +:+ ": " +:+ dq +:+ "ok"
    +:+ dq +:+ ", " +:+ dq +:+ "timestamp" +:+ dq +:+ ": " +:+ dq
    +:+ "2025-01-09" +:+ dq +:+ "})" +:+ nl +:+ nl +:+
  "app = tornado.web.Application([" +:+ nl +:+
  "    (r" +:+ dq +:+ "/health" +:+ dq +:+ ", HealthHandler)," +:+ nl +:+
  "])" +:+ nl +:+ nl +:+
  "if __name__ == " +:+ dq +:+ "__main__" +:+ dq +:+ ":" +:+ nl +:+
  "    server = HTTPServer(app)" +:+ nl +:+
  "    server.listen(8082)" +:+ nl +:+
  "    tornado.ioloop.IOLoop.current().start()" +:+ nl.

Definition health_check : pyval :=
  VDict [ ("name", VStr "health-check");
          ("url", VStr "http://0.0.0.0:8082");
          ("command", VList [ VStr "python3"; VStr "-c"; VStr health_script ]);
          ("admin", VBool false) ].

(** [lst.append(x)] on a value read back from the configuration. *)
Definition append (lst x : pyval) : result pyval :=
  match lst with
  | VList l => Ok (VList (l ++ [x]))
  | _ => Raise (AttributeError "append")
  end.

(** Lines 295-318. *)
Definition health : M unit :=
  current <- attr "JupyterHub.services" ;;
  extended <- lift (append current health_check) ;;
  assign "JupyterHub.services" extended.

(** The whole script, in the order of the file. *)
Definition jupyterhub_config (h : Host) : M unit :=
  basic h ;;
  kubernetes h ;;
  authentication h ;;
  profiles ;;
  logging ;;
  services ;;
  ui h ;;
  network ;;
  security h ;;
  hooks ;;
  debugging h ;;
  health.

(** *** The spawn hooks (lines 251-270) *)

Record Spawner := {
  user_name : string;                   (* [spawner.user.name] *)
  environment : gmap string string;     (* [spawner.environment] *)
  spawner_log : list line;              (* what [spawner.log] received *)
}.

Definition spawner_info (l : line) (sp : Spawner) : Spawner :=
  {| user_name := user_name sp; environment := environment sp;
     spawner_log := spawner_log sp ++ [l] |}.

Definition spawner_setenv (k v : string) (sp : Spawner) : Spawner :=
  {| user_name := user_name sp; environment := <[k := v]> (environment sp);
     spawner_log := spawner_log sp |}.

(** [name in v] for a text [name]. *)
Definition py_in (name : string) (v : pyval) : result bool :=
  match v with
  | VSet s => Ok (bool_decide (name ∈ s))
  | VList l =>
      Ok (existsb (fun x => match x with VStr t => String.eqb name t | _ => false end) l)
  | VDict d => Ok (existsb (fun kv => String.eqb name (fst kv)) d)
  | VStr t => Ok (match String.index 0 name t with Some _ => true | None => false end)
  | _ => Raise (TypeError "argument is not iterable")
  end.

(** [pre_spawn_hook(spawner)], with the configuration object [c] the script
    has built.  The spawner is returned as the hook leaves it, also when the
    hook raises. *)
Definition pre_spawn_hook (h : Host) (c : gmap string pyval) (sp : Spawner)
    : Spawner * result unit :=
  let username := user_name sp in
  let sp := spawner_info [ Lit "Pre-spawn hook for user: "; Val (VStr username) ] sp in
  match py_in username (default (VObj "LazyConfigValue") (c !! "Authenticator.admin_users")) with
  | Raise e => (sp, Raise e)
  | Ok is_admin =>
      let sp := if is_admin then spawner_setenv "JUPYTER_ADMIN" "1" sp else sp in
      let sp := spawner_info [ Lit "Starting server for "; Val (VStr username);
                               Lit " at "; Val (VStr (now h)) ] sp in
      (sp, Ok tt)
  end.

(** [post_stop_hook(spawner)]. *)
Definition post_stop_hook (h : Host) (sp : Spawner) : Spawner * result unit :=
  let username := user_name sp in
  (spawner_info [ Lit "Server stopped for "; Val (VStr username);
                  Lit " at "; Val (VStr (now h)) ] sp, Ok tt).

End Hub.

(** ** The filesystem *)

Module Fs.

Inductive stat_result :=
| Found (n : node)
| NoEntry          (* ENOENT: a component of the path is missing *)
| NotDir.          (* ENOTDIR: a component on the way is a file *)

(** Path resolution from the root, which is always a directory.  An entry
    of the map is reached only through directories: under a missing parent
    or under a file it does not resolve. *)
Fixpoint stat (t : gmap path node) (p : path) : stat_result :=
  match p with
  | [] => Found Dir
  | name :: parent =>
      match stat t parent with
      | Found Dir =>
          match t !! (name :: parent) with
          | Some n => Found n
          | None => NoEntry
          end
      | Found (File _) => NotDir
      | NoEntry => NoEntry
      | NotDir => NotDir
      end
  end.

(** [Path.is_dir()] and [Path.exists()]. *)
Definition is_dir (t : gmap path node) (p : path) : bool :=
  match stat t p with Found Dir => true | _ => false end.

Definition exists_ (t : gmap path node) (p : path) : bool :=
  match stat t p with Found _ => true | _ => false end.

(** [os.mkdir(p)]. *)
Definition os_mkdir (h : Host) (p : path) : M unit :=
  fun s =>
    match p with
    | [] => (s, Raise (OSError FileExistsError p))
    | _ :: parent =>
        match stat (fs s) parent with
        | NoEntry => (s, Raise (OSError FileNotFoundError p))
        | NotDir | Found (File _) => (s, Raise (OSError NotADirectoryError p))
        | Found Dir =>
            match fs s !! p with
            | Some _ => (s, Raise (OSError FileExistsError p))
            | None =>
                if denied h p then (s, Raise (OSError PermissionError p))
                else (set_fs (insert p Dir) s, Ok tt)
            end
        end
    end.

Local Open Scope py_scope.

(** [if not exist_ok or not self.is_dir(): raise]: the handler of both
    [mkdir] variants for the failures other than a missing parent. *)
Definition reraise_unless_dir (exist_ok : bool) (p : path) (e : exn) : M unit :=
  fun s => if negb exist_ok || negb (is_dir (fs s) p)
           then (s, Raise e) else (s, Ok tt).

(** [Path.mkdir(parents=False, exist_ok=exist_ok)]: a missing parent is an
    error; any other failure is forgiven when [exist_ok] is set and the path
    is a directory. *)
Definition mkdir_here (h : Host) (p : path) (exist_ok : bool) : M unit :=
  try_except (os_mkdir h p)
    (fun e =>
       match e with
       | OSError FileNotFoundError _ => raise e
       | OSError _ _ => reraise_unless_dir exist_ok p e
       | _ => raise e
       end).

(** [Path.mkdir(parents=True, exist_ok=exist_ok)]: on a missing parent the
    parent is made first (with its own parents, existing ones accepted) and
    the directory is then made without further recursion. *)
Fixpoint mkdir_parents (h : Host) (p : path) (exist_ok : bool) : M unit :=
  try_except (os_mkdir h p)
    (fun e =>
       match e with
       | OSError FileNotFoundError _ =>
           match p with
           | [] => raise e
           | _ :: parent =>
               mkdir_parents h parent true ;;
               mkdir_here h p exist_ok
           end
       | OSError _ _ => reraise_unless_dir exist_ok p e
       | _ => raise e
       end).

(** [with open(p, 'w') as f: json.dump(...)]: the file is created or
    replaced with the given body. *)
Definition write_file (h : Host) (p : path) (body : content) : M unit :=
  fun s =>
    match p with
    | [] => (s, Raise (OSError IsADirectoryError p))
    | _ :: parent =>
        match stat (fs s) parent with
        | NoEntry => (s, Raise (OSError FileNotFoundError p))
        | NotDir | Found (File _) => (s, Raise (OSError NotADirectoryError p))
        | Found Dir =>
            match fs s !! p with
            | Some Dir => (s, Raise (OSError IsADirectoryError p))
            | _ =>
                if denied h p then (s, Raise (OSError PermissionError p))
                else (set_fs (insert p (File body)) s, Ok tt)
            end
        end
    end.

(** [Path.home()]. *)
Definition path_home (h : Host) : M path :=
  match home_dir h with
  | Some p => ret p
  | None => raise (RuntimeError "Could not determine home directory.")
  end.

(** [p / rel] for a relative [rel]: its components, separated by slashes,
    are appended (empty and dot components are dropped). *)
Definition div (p : path) (rel : string) : path :=
  rev (filter (fun c => c ≠ EmptyString ∧ c ≠ ".") (Text.split "/" rel)) ++ p.

(** [str(p)]. *)
Definition path_str (p : path) : string :=
  match p with
  | [] => "/"
  | _ => fold_left (fun acc c => acc +:+ "/" +:+ c) (rev p) EmptyString
  end.

(** The set of directories of a filesystem: the paths that resolve to a
    directory. *)
Definition is_directory (t : gmap path node) (p : path) : Prop :=
  stat t p = Found Dir.

(** The three outcomes of [os.mkdir]: the directory is added under its
    parent directory; the parent is missing; or the call is refused for
    another reason.  A failed call changes nothing. *)
Inductive mkdir_outcome (h : Host) (p : path) (s : State) : State * result unit → Prop :=
| mkdir_created name parent :
    p = name :: parent → stat (fs s) parent = Found Dir → fs s !! p = None →
    denied h p = false →
    mkdir_outcome h p s (set_fs (insert p Dir) s, Ok tt)
| mkdir_no_parent name parent :
    p = name :: parent → stat (fs s) parent = NoEntry →
    mkdir_outcome h p s (s, Raise (OSError FileNotFoundError p))
| mkdir_refused k :
    k ≠ FileNotFoundError →
    (∀ name parent, p = name :: parent → stat (fs s) parent ≠ NoEntry) →
    mkdir_outcome h p s (s, Raise (OSError k p)).

(** [s'] is [s] with entries added to the filesystem, and nothing else
    changed. *)
Definition extends (s s' : State) : Prop :=
  cfg s' = cfg s ∧ out s' = out s ∧ log s' = log s ∧ fs s ⊆ fs s'.

End Fs.

Fixpoint for_each {A} (l : list A) (body : A → M unit) : M unit :=
  match l with
  | [] => ret tt
  | x :: rest => bind (body x) (fun _ => for_each rest body)
  end.

(** ** [jupyter_lab_config.py] *)

Module Lab.
Import Fs.
Local Open Scope py_scope.

(** [os.path.join(a, b)] on POSIX. *)
Definition os_path_join (a : pyval) (b : string) : result pyval :=
  match a with
  | VStr a =>
      Ok (VStr (if String.prefix "/" b then b
                else if Text.is_empty a || String.eqb (String.substring (String.length a - 1) 1 a) "/"
                     then a +:+ b
                     else a +:+ "/" +:+ b))
  | _ => Raise (TypeError "expected str, bytes or os.PathLike object")
  end.

(** Lines 12-26: the server and its authentication. *)
Definition server (h : Host) : M unit :=
  assign "ServerApp.ip" (VStr "0.0.0.0") ;;
  port <- lift (Builtins.py_int (environ_get_val h "JUPYTER_PORT" (VInt 8888))) ;;
  assign "ServerApp.port" (VInt port) ;;
  assign "ServerApp.open_browser" (VBool false) ;;
  assign "ServerApp.allow_root" (VBool false) ;;
  assign "ServerApp.base_url" (VStr (environ_get_or h "JUPYTER_BASE_URL" "/")) ;;
  assign "ServerApp.token" (VStr (environ_get_or h "JUPYTER_TOKEN" "")) ;;
  assign "ServerApp.password" (VStr (environ_get_or h "JUPYTER_PASSWORD" "")) ;;
  when (truthy (environ_get h "JUPYTERHUB_API_TOKEN"))
    (assign "ServerApp.disable_check_xsrf" (VBool true)).

(** Lines 33-54: files and security. *)
Definition files_and_security (h : Host) : M unit :=
  assign "ServerApp.root_dir" (VStr (environ_get_or h "JUPYTER_ROOT_DIR" "/home/jovyan")) ;;
  assign "ContentsManager.allow_hidden" (VBool true) ;;
  assign "FileContentsManager.pre_save_hook" (VObj "<function <lambda>>") ;;
  assign "ServerApp.allow_origin" (VStr "*") ;;
  assign "ServerApp.allow_credentials" (VBool true) ;;
  assign "ServerApp.tornado_settings"
    (VDict [ ("headers",
              VDict [ ("Content-Security-Policy", VStr "frame-ancestors 'self' *") ]) ]).

(** Lines 61-77: kernels and the lab application. *)
Definition kernels_and_lab (h : Host) : M unit :=
  timeout <- lift (Builtins.py_int (environ_get_val h "JUPYTER_KERNEL_TIMEOUT" (VInt 3600))) ;;
  assign "MappingKernelManager.cull_idle_timeout" (VInt timeout) ;;
  assign "MappingKernelManager.cull_interval" (VInt 300) ;;
  assign "MappingKernelManager.cull_connected" (VBool true) ;;
  assign "ServerApp.default_url" (VStr "/lab") ;;
  assign "LabApp.check_for_updates_class" (VStr "jupyterlab.NeverCheckForUpdate") ;;
  root <- attr "ServerApp.root_dir" ;;
  settings <- lift (os_path_join root ".jupyter/lab/user-settings") ;;
  assign "LabApp.user_settings_dir" settings ;;
  root <- attr "ServerApp.root_dir" ;;
  workspaces <- lift (os_path_join root ".jupyter/lab/workspaces") ;;
  assign "LabApp.workspaces_dir" workspaces.

(** Lines 84-117: resources, logging, extensions and the interface. *)
Definition performance_and_ui (h : Host) : M unit :=
  mem <- lift (Builtins.py_int (environ_get_val h "MEM_LIMIT" (VInt 2147483648))) ;;
  assign "ResourceUseDisplay.mem_limit" (VInt mem) ;;
  assign "ResourceUseDisplay.track_cpu_percent" (VBool true) ;;
  assign "Application.log_level" (VStr (environ_get_or h "JUPYTER_LOG_LEVEL" "INFO")) ;;
  assign "Application.log_format"
    (VStr "[%(levelname)1.1s %(asctime)s.%(msecs).03d %(name)s] %(message)s") ;;
  root <- attr "ServerApp.root_dir" ;;
  assign "GitConfig.git_dir" root ;;
  assign "LabApp.toc_extensions" (VList [ VStr "markdown"; VStr "python" ]) ;;
  assign "LabApp.default_theme"
    (VStr (environ_get_or h "JUPYTER_LAB_THEME" "JupyterLab Light")) ;;
  shutdown <- lift (Builtins.py_int (environ_get_val h "JUPYTER_SHUTDOWN_TIMEOUT" (VInt 0))) ;;
  assign "ServerApp.shutdown_no_activity_timeout" (VInt shutdown).

(** Lines 123-144: collaboration, debugging and notebooks. *)
Definition switches_and_notebooks (h : Host) : M unit :=
  when (String.eqb (Text.lower (environ_get_or h "JUPYTER_ENABLE_COLLABORATION" "false")) "true")
    (assign "LabApp.collaborative" (VBool true) ;;
     assign "YDocExtension.ystore_class" (VStr "jupyter_collaboration.stores.SQLiteYStore")) ;;
  when (String.eqb (Text.lower (environ_get_or h "JUPYTER_DEBUG" "false")) "true")
    (assign "Application.log_level" (VStr "DEBUG") ;;
     assign "ServerApp.allow_remote_access" (VBool true)) ;;
  root <- attr "ServerApp.root_dir" ;;
  db_file <- lift (os_path_join root ".jupyter/nbsignatures.db") ;;
  assign "NotebookNotary.db_file" db_file ;;
  assign "ContentsManager.autosave_interval" (VInt 120).

(** The sample notebook (lines 171-222).  The two pictographs of the source
    lie beyond code point 255 and are written here in their UTF-8 bytes. *)
Definition welcome_content (h : Host) (user_home : path) : pyval :=
  let python_version := environ_get_or h "PYTHON_VERSION" "3.11" in
  VDict
    [ ("cells",
       VList
         [ VDict
             [ ("cell_type", VStr "markdown");
               ("metadata", VDict []);
               ("source",
                VList
                  [ VStr ("# Welcome to kubeadm-python-cluster JupyterLab!" +:+ nl +:+ nl);
                    VStr ("This is your personal Jupyter environment running on Kubernetes."
                          +:+ nl +:+ nl);
                    VStr ("## Getting Started" +:+ nl +:+ nl);
                    VStr ("- This notebook is running Python " +:+ python_version +:+ nl);
                    VStr ("- Your home directory: `" +:+ path_str user_home +:+ "`" +:+ nl);
                    VStr ("- Available libraries: numpy, pandas, matplotlib, scikit-learn, and many more!"
                          +:+ nl +:+ nl);
                    VStr ("## Directories" +:+ nl +:+ nl);
                    VStr ("- `notebooks/` - Store your Jupyter notebooks here" +:+ nl);
                    VStr ("- `data/` - Store datasets and data files" +:+ nl);
                    VStr ("- `projects/` - Organize your code projects" +:+ nl +:+ nl);
                    VStr "Happy coding! 🚀" ]) ];
           VDict
             [ ("cell_type", VStr "code");
               ("execution_count", VNone);
               ("metadata", VDict []);
               ("outputs", VList []);
               ("source",
                VList
                  [ VStr ("# Quick environment check" +:+ nl);
                    VStr ("import sys" +:+ nl);
                    VStr ("import numpy as np" +:+ nl);
                    VStr ("import pandas as pd" +:+ nl);
                    VStr ("import matplotlib.pyplot as plt" +:+ nl);
                    VStr nl;
                    VStr ("print(f" +:+ dq +:+ "Python version: {sys.version}" +:+ dq +:+ ")" +:+ nl);
                    VStr ("print(f" +:+ dq +:+ "NumPy version: {np.__version__}" +:+ dq +:+ ")" +:+ nl);
                    VStr ("print(f" +:+ dq +:+ "Pandas version: {pd.__version__}" +:+ dq +:+ ")" +:+ nl);
                    VStr ("print(" +:+ dq +:+ bs +:+ "nEnvironment is ready! 🎉" +:+ dq +:+ ")") ]) ] ]);
      ("metadata",
       VDict
         [ ("kernelspec",
            VDict [ ("display_name", VStr ("Python " +:+ python_version));
                    ("language", VStr "python");
                    ("name", VStr "python3") ]);
           ("language_info",
            VDict [ ("name", VStr "python");
                    ("version", VStr python_version) ]) ]);
      ("nbformat", VInt 4);
      ("nbformat_minor", VInt 4) ].

(** The directories of line 157, and the notebook of line 168. *)
Definition directories (user_home : path) : list path :=
  [ div user_home "notebooks";
    div user_home "data";
    div user_home "projects";
    div user_home ".jupyter/custom" ].

Definition sample_notebook (user_home : path) : path :=
  div (div user_home "notebooks") "Welcome.ipynb".

(** [setup_user_environment()] (lines 150-225). *)
Definition setup_user_environment (h : Host) : M unit :=
  user_home <- path_home h ;;
  for_each (directories user_home)
    (fun directory => mkdir_parents h directory true) ;;
  present <- (fun s => (s, Ok (exists_ (fs s) (sample_notebook user_home)))) ;;
  when (negb present)
    (write_file h (sample_notebook user_home) (Json (welcome_content h user_home) 2)).

(** Lines 228-231: the setup runs inside [try ... except Exception]. *)
Definition startup (h : Host) : M unit :=
  try_except (setup_user_environment h)
    (fun e => print [ Lit "Warning: Could not set up user environment: "; Err e ]).

(** Lines 237-242. *)
Definition banner (h : Host) : M unit :=
  print [ Lit (Text.repeat_string 50 "=") ] ;;
  print [ Lit "JupyterLab for kubeadm-python-cluster" ] ;;
  print [ Lit "Python version: "; Val (VStr (environ_get_or h "PYTHON_VERSION" "Unknown")) ] ;;
  print [ Lit "User: "; Val (VStr (environ_get_or h "NB_USER" "jovyan")) ] ;;
  root <- attr "ServerApp.root_dir" ;;
  print [ Lit "Home directory: "; Val root ] ;;
  print [ Lit (Text.repeat_string 50 "=") ].

(** Everything before the setup call (lines 12-144). *)
Definition settings (h : Host) : M unit :=
  server h ;;
  files_and_security h ;;
  kernels_and_lab h ;;
  performance_and_ui h ;;
  switches_and_notebooks h.

(** The whole script. *)
Definition jupyter_lab_config (h : Host) : M unit :=
  settings h ;;
  startup h ;;
  banner h.

End Lab.

(** ** Reading the literal records, and the notions the statements use *)

(** [d[key]] on a dictionary whose keys are distinct. *)
Definition dict_get (key : string) (v : pyval) : option pyval :=
  match v with
  | VDict d => snd <$> find (fun kv => String.eqb key (fst kv)) d
  | _ => None
  end.

Definition text_of (v : pyval) : option string :=
  match v with VStr s => Some s | _ => None end.

(** The display name of a profile. *)
Definition display_name (profile : pyval) : option string :=
  dict_get "display_name" profile ≫= text_of.

(** A profile carries the flag [default=True]. *)
Definition is_default (profile : pyval) : bool :=
  match dict_get "default" profile with
  | Some (VBool true) => true
  | _ => false
  end.



(** A statement keeps a setting when the configuration object reads the same
    at that key before and after it, however it ends. *)
Definition keeps {A} (key : string) (m : M A) : Prop :=
  ∀ s, cfg (m s).1 !! key = cfg s !! key.

(** A statement is quiet when it writes nothing to the application log,
    however it ends. *)
Definition quiet {A} (m : M A) : Prop :=
  ∀ s, log (m s).1 = log s.

(** ** Sample hosts and states *)

Definition host_with (env : list (string * string)) : Host :=
  {| environ := list_to_map env;
     home_dir := Some ["jovyan"; "home"];
     denied := fun _ => false;
     now := "2025-01-09 12:00:00" |}.

Definition empty_state : State :=
  {| cfg := ∅; fs := ∅; out := []; log := [] |}.

(** A spawner of the ordinary user bob whose environment already holds the
    admin flag. *)
Definition flagged_spawner : Hub.Spawner :=
  {| Hub.user_name := "bob";
     Hub.environment := {[ "JUPYTER_ADMIN" := "1" ]};
     Hub.spawner_log := [] |}.

(** A host that refuses to create or write the entry at [p]. *)
Definition host_denying (p : path) : Host :=
  {| environ := ∅;
     home_dir := Some ["jovyan"; "home"];
     denied := fun q => bool_decide (q = p);
     now := "2025-01-09 12:00:00" |}.

(** A home directory in which the user has already written the notebook. *)
Definition state_with_notebook : State :=
  {| cfg := ∅;
     fs := list_to_map
             [ ([ "home" ], Dir);
               ([ "jovyan"; "home" ], Dir);
               ([ "notebooks"; "jovyan"; "home" ], Dir);
               ([ "Welcome.ipynb"; "notebooks"; "jovyan"; "home" ],
                File (Text "my own notes")) ];
     out := [];
     log := [] |}.



(** The same host with another environment. *)
Definition with_environ (env : gmap string string) (h : Host) : Host :=
  {| environ := env; home_dir := home_dir h; denied := denied h; now := now h |}.

(** ** [jupyter_config/jupyter_server_config.py] *)

Module Server.

(** The whole script (lines 7-24). *)
Definition jupyter_server_config : M unit :=
  assign "ServerApp.ip" (VStr "0.0.0.0") ;;
  assign "ServerApp.port" (VInt 8888) ;;
  assign "ServerApp.open_browser" (VBool false) ;;
  assign "ServerApp.token" (VStr "") ;;
  assign "ServerApp.password" (VStr "") ;;
  assign "ServerApp.allow_origin" (VStr "*") ;;
  assign "ServerApp.tornado_settings"
    (VDict [ ("headers",
              VDict [ ("Content-Security-Policy", VStr "frame-ancestors 'self' *;") ]) ]) ;;
  assign "Application.log_level" (VStr "INFO").

End Server.

(** No regular file stands at [p] or at a path above it. *)
Definition no_file_on (t : gmap path node) (p : path) : Prop :=
  ∀ front q body, p = front ++ q → t !! q ≠ Some (File body).

(** * Reasoning about runs *)

Section Runs.
Context {A B : Type}.
Implicit Types (m : M A) (k : A → M B).

Lemma bind_ok m k s s1 a : m s = (s1, Ok a) → bind m k s = k a s1.
Proof. intros Hm. unfold bind. by rewrite Hm. Qed.

Lemma bind_raise m k s s1 e : m s = (s1, Raise e) → bind m k s = (s1, Raise e).
Proof. intros Hm. unfold bind. by rewrite Hm. Qed.

Lemma bind_ok_inv m k s s2 b :
  bind m k s = (s2, Ok b) → ∃ s1 a, m s = (s1, Ok a) ∧ k a s1 = (s2, Ok b).
Proof.
  unfold bind. destruct (m s) as [s1 [a|e]]; intros Hk; [eauto | discriminate].
Qed.

Lemma run_eta m s r : (m s).2 = r → m s = ((m s).1, r).
Proof. destruct (m s) as [s1 r1]. cbn. by intros ->. Qed.

End Runs.

(** ** Frame: what a statement leaves alone in the configuration object *)

Section Frame.
Context {A B : Type}.
Variable key : string.

Lemma keeps_ret (a : A) : keeps key (ret a).
Proof. by intros s. Qed.

Lemma keeps_raise e : keeps key (@raise A e).
Proof. by intros s. Qed.

Lemma keeps_lift (r : result A) : keeps key (lift r).
Proof. by intros s. Qed.

Lemma keeps_attr k : keeps key (attr k).
Proof. by intros s. Qed.

Lemma keeps_log_info l : keeps key (log_info l).
Proof. by intros s. Qed.

Lemma keeps_print l : keeps key (print l).
Proof. by intros s. Qed.

Lemma keeps_assign k v : k ≠ key → keeps key (assign k v).
Proof. intros Hne s. cbn. by rewrite lookup_insert_ne. Qed.

Lemma keeps_bind (m : M A) (k : A → M B) :
  keeps key m → (∀ a, keeps key (k a)) → keeps key (bind m k).
Proof.
  intros Hm Hk s. unfold bind. specialize (Hm s).
  destruct (m s) as [s1 [a|e]]; cbn in *; [by rewrite (Hk a s1) | done].
Qed.

Lemma keeps_when c (m : M unit) : keeps key m → keeps key (when c m).
Proof. intros Hm. destruct c; [done | by intros s]. Qed.


End Frame.

Lemma keeps_info_method key target : keeps key (Hub.info_method target).
Proof. unfold Hub.info_method. by destruct (Hub.is_logger target); intros s. Qed.

(** The frame of a straight-line block, statement by statement. *)
Ltac frame :=
  repeat first
    [ apply keeps_bind; [ | intros ? ]
    | apply keeps_when
    | apply keeps_assign; discriminate
    | apply keeps_ret
    | apply keeps_raise
    | apply keeps_lift
    | apply keeps_attr
    | apply keeps_info_method
    | apply keeps_log_info
    | apply keeps_print ].

Lemma keeps_at {A} key (m : M A) s : keeps key m → cfg (m s).1 !! key = cfg s !! key.
Proof. intros Hk. apply Hk. Qed.

Lemma keeps_run {A} (m : M A) s s' r key :
  m s = (s', r) → keeps key m → cfg s' !! key = cfg s !! key.
Proof. intros Hm Hk. specialize (Hk s). by rewrite Hm in Hk. Qed.

Lemma bind_then_keeps {A B} key (m : M A) (k : A → M B) s :
  (∀ a, keeps key (k a)) → cfg (bind m k s).1 !! key = cfg (m s).1 !! key.
Proof.
  intros Hk. unfold bind. destruct (m s) as [s1 [a|e]]; [apply Hk | done].
Qed.

(** ** Quiet statements: nothing is written to the application log *)

Section Quiet.
Context {A B : Type}.

Lemma quiet_ret (a : A) : quiet (ret a).
Proof. by intros s. Qed.

Lemma quiet_raise e : quiet (@raise A e).
Proof. by intros s. Qed.

Lemma quiet_lift (r : result A) : quiet (lift r).
Proof. by intros s. Qed.

Lemma quiet_attr k : quiet (attr k).
Proof. by intros s. Qed.

Lemma quiet_assign k v : quiet (assign k v).
Proof. by intros s. Qed.

Lemma quiet_bind (m : M A) (k : A → M B) :
  quiet m → (∀ a, quiet (k a)) → quiet (bind m k).
Proof.
  intros Hm Hk s. unfold bind. specialize (Hm s).
  destruct (m s) as [s1 [a|e]]; cbn in *; [by rewrite (Hk a s1) | done].
Qed.

End Quiet.

Lemma quiet_when c (m : M unit) : quiet m → quiet (when c m).
Proof. intros Hm. destruct c; [done | by intros s]. Qed.

Ltac hush :=
  repeat first
    [ apply quiet_bind; [ | intros ? ]
    | apply quiet_when
    | apply quiet_assign
    | apply quiet_ret
    | apply quiet_raise
    | apply quiet_lift
    | apply quiet_attr ].

Lemma quiet_run {A} (m : M A) s s' r : m s = (s', r) → quiet m → log s' = log s.
Proof. intros Hm Hq. specialize (Hq s). by rewrite Hm in Hq. Qed.

(** Lookups in a configuration built by a chain of assignments. *)
Ltac lookups :=
  repeat first [ rewrite lookup_insert_eq | rewrite lookup_insert_ne by discriminate ].

(** ** Text lemmas *)

Module TextFacts.
Import Text.

Lemma split_nonempty sep s : split sep s ≠ [].
Proof.
  destruct s as [|c r]; cbn; [done |].
  destruct (Ascii.eqb c sep); [done |]. by destruct (split sep r).
Qed.

Lemma join_push sep c p rest :
  join sep (String c p :: rest) = String c (join sep (p :: rest)).
Proof. by destruct rest. Qed.

(** Joining the pieces of a split gives the text back. *)
Lemma join_split sep s : join sep (split sep s) = s.
Proof.
  induction s as [|c r IH]; [done |]. cbn [split].
  pose proof (split_nonempty sep r) as Hr.
  destruct (split sep r) as [|p rest] eqn:E; [done |].
  destruct (Ascii.eqb_spec c sep) as [->|Hne].
  - change (join sep (EmptyString :: p :: rest))
      with (String sep (join sep (p :: rest))). by rewrite IH.
  - by rewrite join_push, IH.
Qed.

(** No piece of a split holds the separator. *)
Lemma split_no_sep sep s :
  Forall (fun p => contains_char sep p = false) (split sep s).
Proof.
  induction s as [|c r IH]; cbn [split].
  - by repeat constructor.
  - destruct (Ascii.eqb c sep) eqn:E.
    + by constructor.
    + destruct (split sep r) as [|p rest]; [repeat constructor; cbn; by rewrite E |].
      inversion IH as [|? ? Hp Hrest]; subst.
      constructor; [cbn; by rewrite E, Hp | done].
Qed.

End TextFacts.

(** * The hub configuration *)

Module HubFacts.
Import Hub.

Lemma basic_run h s :
  ∃ s1, basic h s = (s1, Ok tt) ∧
        cfg s1 !! "Authenticator.admin_users" =
          Some (VSet (list_to_set
                        (Text.split "," (environ_get_or h "JUPYTERHUB_ADMIN_USERS" "admin")))).
Proof. eexists. split; [reflexivity |]. cbn. by rewrite lookup_insert_eq. Qed.

Lemma kubernetes_storage h s s' :
  kubernetes h s = (s', Ok tt) →
  cfg s' !! "KubeSpawner.pvc_name_template" = Some (VStr "jupyterhub-user-{username}") ∧
  cfg s' !! "KubeSpawner.volume_mounts" = Some volume_mounts ∧
  cfg s' !! "KubeSpawner.volumes" = Some (volumes (VStr "jupyterhub-user-{username}")).
Proof.
  unfold kubernetes, bind, lift, attr, assign.
  destruct (Builtins.py_float _) as [f1|e1]; [|discriminate].
  destruct (Builtins.py_float _) as [f2|e2]; [|discriminate].
  intros [= <-]. cbn. by lookups.
Qed.

(** The blocks of the script, unfolded for the frame tactic. *)
Ltac blocks :=
  unfold basic, kubernetes, authentication, profiles, logging, services, ui,
    network, security, tls, hooks, debugging, debug_switch, startup_messages,
    health.

Ltac kept H := rewrite (keeps_run _ _ _ _ _ H) by (blocks; frame).

(** What follows the hooks -- the debug switch, the startup messages and
    the health check -- leaves a setting alone. *)
Ltac past_tail h :=
  rewrite (keeps_at _ (bind (debugging h) (fun _ => health))) by (blocks; frame).

Lemma admin_users_assigned h s0 :
  cfg (jupyterhub_config h s0).1 !! "Authenticator.admin_users" =
    Some (VSet (list_to_set
                  (Text.split "," (environ_get_or h "JUPYTERHUB_ADMIN_USERS" "admin")))).
Proof.
  destruct (basic_run h s0) as (s1 & Hrun & Hget).
  unfold jupyterhub_config. rewrite (bind_ok _ _ _ _ _ Hrun), <- Hget.
  generalize s1. change (keeps "Authenticator.admin_users"
    (kubernetes h ;; authentication h ;; profiles ;; logging ;; services ;;
     ui h ;; network ;; security h ;; hooks ;; debugging h ;; health)%py).
  blocks; frame.
Qed.

Lemma kubernetes_completes h s f1 f2 :
  Builtins.py_float (VStr (environ_get_or h "JUPYTERHUB_CPU_LIMIT" "1.0")) = Ok f1 →
  Builtins.py_float (VStr (environ_get_or h "JUPYTERHUB_CPU_GUARANTEE" "0.5")) = Ok f2 →
  ∃ s', kubernetes h s = (s', Ok tt).
Proof.
  intros Hlimit Hguarantee. unfold kubernetes, bind, lift.
  rewrite Hlimit, Hguarantee. eexists. reflexivity.
Qed.

(** When the two CPU values are floats, every block up to the hooks ends
    normally, and the run is that of the rest from the state they leave. *)
Lemma hub_reaches_debugging h s0 f1 f2 :
  Builtins.py_float (VStr (environ_get_or h "JUPYTERHUB_CPU_LIMIT" "1.0")) = Ok f1 →
  Builtins.py_float (VStr (environ_get_or h "JUPYTERHUB_CPU_GUARANTEE" "0.5")) = Ok f2 →
  ∃ s1 s2 s3 s4 s5 s6 s7 s8 s9 s10,
    basic h s0 = (s1, Ok tt) ∧ kubernetes h s1 = (s2, Ok tt) ∧
    authentication h s2 = (s3, Ok tt) ∧ profiles s3 = (s4, Ok tt) ∧
    logging s4 = (s5, Ok tt) ∧ services s5 = (s6, Ok tt) ∧
    ui h s6 = (s7, Ok tt) ∧ network s7 = (s8, Ok tt) ∧
    security h s8 = (s9, Ok tt) ∧ hooks s9 = (s10, Ok tt) ∧
    jupyterhub_config h s0 = bind (debugging h) (fun _ => health) s10.
Proof.
  intros Hlimit Hguarantee. unfold jupyterhub_config.
  destruct (basic_run h s0) as (s1 & H1 & _). rewrite (bind_ok _ _ _ _ _ H1).
  destruct (kubernetes_completes h s1 _ _ Hlimit Hguarantee) as (s2 & H2).
  rewrite (bind_ok _ _ _ _ _ H2).
  assert (∃ s3, authentication h s2 = (s3, Ok tt)) as (s3 & H3) by (eexists; reflexivity).
  rewrite (bind_ok _ _ _ _ _ H3).
  assert (∃ s4, profiles s3 = (s4, Ok tt)) as (s4 & H4) by (eexists; reflexivity).
  rewrite (bind_ok _ _ _ _ _ H4).
  assert (∃ s5, logging s4 = (s5, Ok tt)) as (s5 & H5) by (eexists; reflexivity).
  rewrite (bind_ok _ _ _ _ _ H5).
  assert (∃ s6, services s5 = (s6, Ok tt)) as (s6 & H6) by (eexists; reflexivity).
  rewrite (bind_ok _ _ _ _ _ H6).
  assert (∃ s7, ui h s6 = (s7, Ok tt)) as (s7 & H7) by (eexists; reflexivity).
  rewrite (bind_ok _ _ _ _ _ H7).
  assert (∃ s8, network s7 = (s8, Ok tt)) as (s8 & H8) by (eexists; reflexivity).
  rewrite (bind_ok _ _ _ _ _ H8).
  assert (∃ s9, security h s8 = (s9, Ok tt)) as (s9 & H9)
    by (unfold security, tls; destruct (truthy _); eexists; reflexivity).
  rewrite (bind_ok _ _ _ _ _ H9).
  assert (∃ s10, hooks s9 = (s10, Ok tt)) as (s10 & H10) by (eexists; reflexivity).
  rewrite (bind_ok _ _ _ _ _ H10).
  by exists s1, s2, s3, s4, s5, s6, s7, s8, s9, s10.
Qed.

(** C1: the profile list the script assigns has exactly five entries,
    exactly one of them is flagged [default=True], namely the one shown as
    'Python 3.11 (Default)', and the five display names are pairwise
    distinct.  The list is assigned at lines 111-174, after the two CPU
    values of the environment have been read as floats at lines 44 and 46;
    it is in the configuration the script leaves, whether the run then goes
    on to its end or stops at the startup messages. *)
Theorem profile_list_five_one_default (h : Host) (s0 : State) (f1 f2 : pyfloat) :
  Builtins.py_float (VStr (environ_get_or h "JUPYTERHUB_CPU_LIMIT" "1.0")) = Ok f1 →
  Builtins.py_float (VStr (environ_get_or h "JUPYTERHUB_CPU_GUARANTEE" "0.5")) = Ok f2 →
  ∃ pl first,
    cfg (jupyterhub_config h s0).1 !! "KubeSpawner.profile_list" = Some (VList pl) ∧
    length pl = 5%nat ∧
    filter (fun p => is_default p = true) pl = [first] ∧
    display_name first = Some "Python 3.11 (Default)" ∧
    length (omap display_name pl) = 5%nat ∧
    NoDup (omap display_name pl).
Proof.
  intros Hlimit Hguarantee.
  destruct (hub_reaches_debugging h s0 f1 f2 Hlimit Hguarantee)
    as (s1 & s2 & s3 & s4 & s5 & s6 & s7 & s8 & s9 & s10 &
        H1 & H2 & H3 & H4 & H5 & H6 & H7 & H8 & H9 & H10 & ->).
  exists profile_list, (hd VNone profile_list).
  split; [| split; [done | split; [done | split; [done | split; [done |] ] ] ] ].
  - past_tail h. kept H10. kept H9. kept H8. kept H7. kept H6. kept H5.
    injection H4 as <-. cbn. by rewrite lookup_insert_eq.
  - apply (bool_decide_unpack _). by vm_compute.
Qed.

Lemma profile_list_five_one_default_witness :
  ∃ pl first,
    cfg (jupyterhub_config (host_with []) empty_state).1 !! "KubeSpawner.profile_list"
      = Some (VList pl) ∧
    length pl = 5%nat ∧
    filter (fun p => is_default p = true) pl = [first] ∧
    display_name first = Some "Python 3.11 (Default)" ∧
    length (omap display_name pl) = 5%nat ∧
    NoDup (omap display_name pl).
Proof.
  apply (profile_list_five_one_default (host_with []) empty_state
           (FDec false 10 (-1)) (FDec false 5 (-1))); reflexivity.
Defined.

(** C8: the configuration the script leaves has exactly one volume, named
    'home', whose claim name is the per-user template
    'jupyterhub-user-{username}' held by [pvc_name_template], and exactly one
    mount, of that same name, at '/home/jovyan'.  The three settings are
    assigned at lines 49-65, after the two CPU values of the environment
    have been read as floats at lines 44 and 46. *)
Theorem volume_and_mount_pairing (h : Host) (s0 : State) (f1 f2 : pyfloat) :
  Builtins.py_float (VStr (environ_get_or h "JUPYTERHUB_CPU_LIMIT" "1.0")) = Ok f1 →
  Builtins.py_float (VStr (environ_get_or h "JUPYTERHUB_CPU_GUARANTEE" "0.5")) = Ok f2 →
  ∃ volume mount claim,
    cfg (jupyterhub_config h s0).1 !! "KubeSpawner.volumes" = Some (VList [volume]) ∧
    dict_get "name" volume = Some (VStr "home") ∧
    dict_get "persistentVolumeClaim" volume ≫= dict_get "claimName" = Some claim ∧
    claim = VStr "jupyterhub-user-{username}" ∧
    cfg (jupyterhub_config h s0).1 !! "KubeSpawner.pvc_name_template" = Some claim ∧
    cfg (jupyterhub_config h s0).1 !! "KubeSpawner.volume_mounts" = Some (VList [mount]) ∧
    dict_get "name" mount = dict_get "name" volume ∧
    dict_get "mountPath" mount = Some (VStr "/home/jovyan").
Proof.
  intros Hlimit Hguarantee.
  destruct (hub_reaches_debugging h s0 f1 f2 Hlimit Hguarantee)
    as (s1 & s2 & s3 & s4 & s5 & s6 & s7 & s8 & s9 & s10 &
        H1 & H2 & H3 & H4 & H5 & H6 & H7 & H8 & H9 & H10 & ->).
  destruct (kubernetes_storage _ _ _ H2) as (Htemplate & Hmounts & Hvolumes).
  exists (VDict [ ("name", VStr "home");
                  ("persistentVolumeClaim",
                   VDict [ ("claimName", VStr "jupyterhub-user-{username}") ]) ]),
         (VDict [ ("name", VStr "home");
                  ("mountPath", VStr "/home/jovyan");
                  ("subPath", VStr "home/{username}") ]),
         (VStr "jupyterhub-user-{username}").
  split_and!; try done;
    past_tail h; kept H10; kept H9; kept H8; kept H7; kept H6; kept H5;
    kept H4; kept H3; assumption.
Qed.

Lemma volume_and_mount_pairing_witness :
  ∃ volume mount claim,
    cfg (jupyterhub_config (host_with []) empty_state).1 !! "KubeSpawner.volumes"
      = Some (VList [volume]) ∧
    dict_get "name" volume = Some (VStr "home") ∧
    dict_get "persistentVolumeClaim" volume ≫= dict_get "claimName" = Some claim ∧
    claim = VStr "jupyterhub-user-{username}" ∧
    cfg (jupyterhub_config (host_with []) empty_state).1 !! "KubeSpawner.pvc_name_template"
      = Some claim ∧
    cfg (jupyterhub_config (host_with []) empty_state).1 !! "KubeSpawner.volume_mounts"
      = Some (VList [mount]) ∧
    dict_get "name" mount = dict_get "name" volume ∧
    dict_get "mountPath" mount = Some (VStr "/home/jovyan").
Proof.
  apply (volume_and_mount_pairing (host_with []) empty_state
           (FDec false 10 (-1)) (FDec false 5 (-1))); reflexivity.
Defined.

(** C6: whatever the environment, the admin users are the set of the pieces
    of JUPYTERHUB_ADMIN_USERS between its commas -- pieces that hold no comma
    and that, joined by commas, give the value back -- and the set with the
    one member 'admin' when the variable is unset. *)
Theorem admin_users_split_on_commas (h : Host) (s0 : State) :
  (∀ value, environ h !! "JUPYTERHUB_ADMIN_USERS" = Some value →
     ∃ pieces,
       cfg (jupyterhub_config h s0).1 !! "Authenticator.admin_users"
         = Some (VSet (list_to_set pieces)) ∧
       Text.join "," pieces = value ∧
       Forall (fun p => Text.contains_char "," p = false) pieces) ∧
  (environ h !! "JUPYTERHUB_ADMIN_USERS" = None →
     cfg (jupyterhub_config h s0).1 !! "Authenticator.admin_users"
       = Some (VSet {[ "admin" ]})).
Proof.
  rewrite admin_users_assigned. unfold environ_get_or. split.
  - intros value ->. exists (Text.split "," value). cbn [default].
    split_and!; [done | apply TextFacts.join_split | apply TextFacts.split_no_sep].
  - intros ->. cbn. do 2 f_equal; set_solver.
Qed.

Lemma admin_users_split_on_commas_witness :
  (∃ pieces,
     cfg (jupyterhub_config (host_with [("JUPYTERHUB_ADMIN_USERS", "alice,bob")]) empty_state).1
       !! "Authenticator.admin_users" = Some (VSet (list_to_set pieces)) ∧
     Text.join "," pieces = "alice,bob" ∧
     Forall (fun p => Text.contains_char "," p = false) pieces) ∧
  cfg (jupyterhub_config (host_with []) empty_state).1 !! "Authenticator.admin_users"
    = Some (VSet {[ "admin" ]}).
Proof.
  split.
  - apply (admin_users_split_on_commas
             (host_with [("JUPYTERHUB_ADMIN_USERS", "alice,bob")]) empty_state).
    reflexivity.
  - apply (admin_users_split_on_commas (host_with []) empty_state). reflexivity.
Defined.

(** C10: when JUPYTERHUB_ADMIN_USERS is set, the admin users are the pieces
    of its value and the default is not consulted; set to the empty text,
    the set has the empty user name as its one member, so it is neither the
    empty set nor the default set. *)
Theorem admin_users_of_empty_value (h : Host) (s0 : State) (value : string) :
  environ h !! "JUPYTERHUB_ADMIN_USERS" = Some value →
  cfg (jupyterhub_config h s0).1 !! "Authenticator.admin_users"
    = Some (VSet (list_to_set (Text.split "," value))) ∧
  (value = EmptyString →
     cfg (jupyterhub_config h s0).1 !! "Authenticator.admin_users"
       = Some (VSet {[ EmptyString ]}) ∧
     ({[ EmptyString ]} : gset string) ≠ ∅ ∧
     ({[ EmptyString ]} : gset string) ≠ {[ "admin" ]}).
Proof.
  intros Hset. rewrite admin_users_assigned. unfold environ_get_or.
  rewrite Hset. cbn [default]. split; [done |]. intros ->. cbn.
  split; [do 2 f_equal; set_solver |]. split.
  - intros Heq. assert (EmptyString ∈ (∅ : gset string)) by (rewrite <- Heq; set_solver).
    set_solver.
  - intros Heq. assert (EmptyString ∈ ({[ "admin" ]} : gset string)) as Hin
      by (rewrite <- Heq; set_solver).
    apply elem_of_singleton in Hin. discriminate.
Qed.

Lemma admin_users_of_empty_value_witness :
  cfg (jupyterhub_config (host_with [("JUPYTERHUB_ADMIN_USERS", "")]) empty_state).1
    !! "Authenticator.admin_users" = Some (VSet {[ EmptyString ]}).
Proof.
  apply (admin_users_of_empty_value
           (host_with [("JUPYTERHUB_ADMIN_USERS", "")]) empty_state EmptyString);
    reflexivity.
Defined.

Lemma tls_off h :
  truthy (environ_get h "JUPYTERHUB_SSL_CERT") = false → tls h = ret tt.
Proof. unfold tls. by intros ->. Qed.

Lemma security_tls h s s' cert :
  environ h !! "JUPYTERHUB_SSL_CERT" = Some cert → cert ≠ EmptyString →
  security h s = (s', Ok tt) →
  cfg s' !! "JupyterHub.ssl_cert" = Some (VStr cert) ∧
  cfg s' !! "JupyterHub.ssl_key" = Some (opt_val (environ h !! "JUPYTERHUB_SSL_KEY")) ∧
  cfg s' !! "JupyterHub.redirect_to_server" = Some (VBool false).
Proof.
  intros Hcert Hne. unfold security, tls, environ_get. rewrite Hcert.
  destruct cert; [done |]. cbn. intros [= <-]. cbn. by lookups.
Qed.

(** C7: when JUPYTERHUB_SSL_CERT is set and not empty, the configuration
    the script leaves holds the certificate, the key read from
    JUPYTERHUB_SSL_KEY and [redirect_to_server = False] -- the three are
    assigned at lines 236-238, which the run reaches when the two CPU values
    of the environment are floats; when the variable is unset or empty, the
    script leaves the three settings as it found them. *)
Theorem tls_settings_conditional (h : Host) (s0 : State) :
  (∀ cert f1 f2,
     environ h !! "JUPYTERHUB_SSL_CERT" = Some cert → cert ≠ EmptyString →
     Builtins.py_float (VStr (environ_get_or h "JUPYTERHUB_CPU_LIMIT" "1.0")) = Ok f1 →
     Builtins.py_float (VStr (environ_get_or h "JUPYTERHUB_CPU_GUARANTEE" "0.5")) = Ok f2 →
     cfg (jupyterhub_config h s0).1 !! "JupyterHub.ssl_cert" = Some (VStr cert) ∧
     cfg (jupyterhub_config h s0).1 !! "JupyterHub.ssl_key"
       = Some (opt_val (environ h !! "JUPYTERHUB_SSL_KEY")) ∧
     cfg (jupyterhub_config h s0).1 !! "JupyterHub.redirect_to_server"
       = Some (VBool false)) ∧
  (environ h !! "JUPYTERHUB_SSL_CERT" = None ∨
   environ h !! "JUPYTERHUB_SSL_CERT" = Some EmptyString →
   ∀ key,
     key ∈ [ "JupyterHub.ssl_cert"; "JupyterHub.ssl_key";
             "JupyterHub.redirect_to_server" ] →
     cfg (jupyterhub_config h s0).1 !! key = cfg s0 !! key).
Proof.
  split.
  - intros cert f1 f2 Hcert Hne Hlimit Hguarantee.
    destruct (hub_reaches_debugging h s0 f1 f2 Hlimit Hguarantee)
      as (s1 & s2 & s3 & s4 & s5 & s6 & s7 & s8 & s9 & s10 &
          H1 & H2 & H3 & H4 & H5 & H6 & H7 & H8 & H9 & H10 & ->).
    destruct (security_tls _ _ _ _ Hcert Hne H9) as (Hc & Hk & Hr).
    split_and!; past_tail h; kept H10; assumption.
  - intros Hunset key Hkey.
    assert (truthy (environ_get h "JUPYTERHUB_SSL_CERT") = false) as Hoff
      by (unfold environ_get; by destruct Hunset as [-> | ->]).
    revert s0. change (keeps key (jupyterhub_config h)).
    unfold jupyterhub_config, security. rewrite (tls_off _ Hoff).
    repeat (apply elem_of_cons in Hkey as [-> | Hkey]);
      [ | | | by apply elem_of_nil in Hkey ]; blocks; frame.
Qed.

Lemma tls_settings_conditional_witness :
  (let h := host_with [ ("JUPYTERHUB_SSL_CERT", "/etc/tls/hub.crt");
                        ("JUPYTERHUB_SSL_KEY", "/etc/tls/hub.key") ] in
   cfg (jupyterhub_config h empty_state).1 !! "JupyterHub.ssl_cert"
     = Some (VStr "/etc/tls/hub.crt") ∧
   cfg (jupyterhub_config h empty_state).1 !! "JupyterHub.ssl_key"
     = Some (VStr "/etc/tls/hub.key") ∧
   cfg (jupyterhub_config h empty_state).1 !! "JupyterHub.redirect_to_server"
     = Some (VBool false)) ∧
  cfg (jupyterhub_config (host_with [ ("JUPYTERHUB_SSL_CERT", "") ]) empty_state).1
    !! "JupyterHub.ssl_cert" = None.
Proof.
  split.
  - apply (proj1 (tls_settings_conditional
                    (host_with [ ("JUPYTERHUB_SSL_CERT", "/etc/tls/hub.crt");
                                 ("JUPYTERHUB_SSL_KEY", "/etc/tls/hub.key") ]) empty_state)
             "/etc/tls/hub.crt" (FDec false 10 (-1)) (FDec false 5 (-1))).
    + reflexivity.
    + discriminate.
    + reflexivity.
    + reflexivity.
  - apply (proj2 (tls_settings_conditional
                    (host_with [ ("JUPYTERHUB_SSL_CERT", "") ]) empty_state)).
    + right. reflexivity.
    + apply list_elem_of_here.
Defined.

(** *** The pre-spawn hook *)

(** C3, as the code has it: with the admin users the configuration holds,
    the hook ends normally; for an admin user the spawner's environment then
    maps JUPYTER_ADMIN to '1'; for any other user the hook leaves the
    spawner's environment as it was, so it holds no JUPYTER_ADMIN entry
    unless it already held one. *)
Theorem pre_spawn_hook_admin_flag
    (h : Host) (c : gmap string pyval) (admins : gset string) (sp : Spawner) :
  c !! "Authenticator.admin_users" = Some (VSet admins) →
  (pre_spawn_hook h c sp).2 = Ok tt ∧
  (user_name sp ∈ admins →
     environment (pre_spawn_hook h c sp).1 !! "JUPYTER_ADMIN" = Some "1") ∧
  (user_name sp ∉ admins →
     environment (pre_spawn_hook h c sp).1 = environment sp ∧
     (environment sp !! "JUPYTER_ADMIN" = None →
      environment (pre_spawn_hook h c sp).1 !! "JUPYTER_ADMIN" = None)).
Proof.
  intros Hadmins. unfold pre_spawn_hook. rewrite Hadmins. cbn.
  split; [done |]. split.
  - intros Hin. rewrite bool_decide_eq_true_2 by done. cbn. apply lookup_insert_eq.
  - intros Hout. rewrite bool_decide_eq_false_2 by done. by cbn.
Qed.

Lemma pre_spawn_hook_admin_flag_witness :
  environment
    (pre_spawn_hook (host_with [])
       (cfg (jupyterhub_config (host_with []) empty_state).1)
       {| user_name := "admin"; environment := ∅; spawner_log := [] |}).1
    !! "JUPYTER_ADMIN" = Some "1".
Proof.
  apply (pre_spawn_hook_admin_flag (host_with [])
           (cfg (jupyterhub_config (host_with []) empty_state).1) {[ "admin" ]}).
  - reflexivity.
  - cbn. set_solver.
Defined.

(** C3, as stated, fails: a spawner whose environment already holds
    JUPYTER_ADMIN keeps it through the hook although its user is not among
    the admin users. *)
Lemma pre_spawn_hook_flag_survives :
  cfg (jupyterhub_config (host_with []) empty_state).1 !! "Authenticator.admin_users"
    = Some (VSet {[ "admin" ]}) ∧
  (user_name flagged_spawner ∉ ({[ "admin" ]} : gset string)) ∧
  (environment
     (pre_spawn_hook (host_with [])
        (cfg (jupyterhub_config (host_with []) empty_state).1) flagged_spawner).1
     !! "JUPYTER_ADMIN" ≠ None).
Proof.
  split; [reflexivity |]. split.
  - cbn. intros Hin. apply elem_of_singleton in Hin. discriminate.
  - intros Hnone. vm_compute in Hnone. discriminate.
Qed.

End HubFacts.

(** * The filesystem operations *)

Module FsFacts.
Import Fs Lab.
Local Open Scope py_scope.

Lemma extends_refl s : extends s s.
Proof. by repeat split. Qed.

Lemma extends_trans s1 s2 s3 : extends s1 s2 → extends s2 s3 → extends s1 s3.
Proof.
  intros (? & ? & ? & ?) (? & ? & ? & ?). repeat split; try congruence.
  by etrans.
Qed.

Lemma stat_mono t t' p n : t ⊆ t' → stat t p = Found n → stat t' p = Found n.
Proof.
  intros Hsub. revert n. induction p as [|name parent IH]; intros n; [done |].
  cbn. destruct (stat t parent) as [[|body]| |] eqn:Hparent; try done.
  rewrite (IH _ eq_refl).
  destruct (t !! (name :: parent)) as [m|] eqn:Hm; [|done].
  intros [= <-]. by rewrite (lookup_weaken _ _ _ _ Hm Hsub).
Qed.

Lemma is_dir_mono t t' p : t ⊆ t' → is_dir t p = true → is_dir t' p = true.
Proof.
  unfold is_dir. intros Hsub.
  destruct (stat t p) as [[|body]| |] eqn:Hp; try done.
  by rewrite (stat_mono _ _ _ _ Hsub Hp).
Qed.

Lemma stat_insert_self t name parent n :
  stat t parent = Found Dir → t !! (name :: parent) = None →
  stat (<[name :: parent := n]> t) (name :: parent) = Found n.
Proof.
  intros Hparent Hnone. cbn.
  rewrite (stat_mono t _ parent Dir); [by rewrite lookup_insert_eq | | done].
  by apply insert_subseteq.
Qed.

Lemma is_dir_parent t name parent :
  is_dir t (name :: parent) = true → is_dir t parent = true.
Proof.
  unfold is_dir. cbn. by destruct (stat t parent) as [[|body]| |].
Qed.

Lemma is_dir_inv t name parent :
  is_dir t (name :: parent) = true →
  stat t parent = Found Dir ∧ t !! (name :: parent) = Some Dir.
Proof.
  unfold is_dir. cbn. destruct (stat t parent) as [[|body]| |]; try done.
  destruct (t !! (name :: parent)) as [[|body]|]; done.
Qed.

Lemma os_mkdir_outcome h p s : mkdir_outcome h p s (os_mkdir h p s).
Proof.
  unfold os_mkdir. destruct p as [|name parent].
  { by apply mkdir_refused. }
  destruct (stat (fs s) parent) as [[|body]| |] eqn:Hparent.
  - destruct (fs s !! (name :: parent)) eqn:Hp.
    + apply mkdir_refused; [done |]. intros ? ? [= <- <-]. by rewrite Hparent.
    + destruct (denied h (name :: parent)) eqn:Hd.
      * apply mkdir_refused; [done |]. intros ? ? [= <- <-]. by rewrite Hparent.
      * by eapply mkdir_created.
  - apply mkdir_refused; [done |]. intros ? ? [= <- <-]. by rewrite Hparent.
  - by eapply mkdir_no_parent.
  - apply mkdir_refused; [done |]. intros ? ? [= <- <-]. by rewrite Hparent.
Qed.

Lemma mkdir_here_unfold h p s :
  mkdir_here h p true s =
    match os_mkdir h p s with
    | (s', Ok a) => (s', Ok a)
    | (s', Raise (OSError FileNotFoundError q)) => (s', Raise (OSError FileNotFoundError q))
    | (s', Raise (OSError k q)) => reraise_unless_dir true p (OSError k q) s'
    | (s', Raise e) => (s', Raise e)
    end.
Proof.
  unfold mkdir_here, try_except. destruct (os_mkdir h p s) as [s' [a|e]]; [done |].
  destruct e as [| | | |k q]; try done. by destruct k.
Qed.

Lemma mkdir_parents_unfold h p s :
  mkdir_parents h p true s =
    match os_mkdir h p s with
    | (s', Ok a) => (s', Ok a)
    | (s', Raise (OSError FileNotFoundError q)) =>
        match p with
        | [] => (s', Raise (OSError FileNotFoundError q))
        | _ :: parent => (mkdir_parents h parent true ;; mkdir_here h p true) s'
        end
    | (s', Raise (OSError k q)) => reraise_unless_dir true p (OSError k q) s'
    | (s', Raise e) => (s', Raise e)
    end.
Proof.
  destruct p as [|name parent]; cbn [mkdir_parents]; unfold try_except;
    (destruct (os_mkdir h _ s) as [s' [a|e]]; [done |]);
    (destruct e as [| | | |k q]; try done); by destruct k.
Qed.

Lemma reraise_result p e s s' r :
  reraise_unless_dir true p e s = (s', r) →
  s' = s ∧ match r with
           | Ok _ => is_dir (fs s) p = true
           | Raise e' => e' = e ∧ is_dir (fs s) p = false
           end.
Proof.
  unfold reraise_unless_dir. cbn. destruct (is_dir (fs s) p); cbn; by intros [= <- <-].
Qed.

Lemma mkdir_here_result h p s s' r :
  mkdir_here h p true s = (s', r) →
  extends s s' ∧
  match r with
  | Ok _ => is_dir (fs s') p = true
  | Raise _ => s' = s ∧ is_dir (fs s) p = false
  end.
Proof.
  rewrite mkdir_here_unfold.
  destruct (os_mkdir_outcome h p s) as [name parent -> Hparent Hnone Hd
                                       | name parent -> Hparent | k Hk Hp].
  - intros [= <- <-]. split; [repeat split; by apply insert_subseteq |].
    unfold is_dir. cbn [fs set_fs]. by rewrite stat_insert_self.
  - intros [= <- <-]. split; [apply extends_refl |]. split; [done |].
    unfold is_dir. cbn. by rewrite Hparent.
  - destruct k; try done;
      (intros Hf; apply reraise_result in Hf as [-> Hr]; split; [apply extends_refl |]);
      (destruct r; [exact Hr | by destruct Hr]).
Qed.

Lemma mkdir_parents_result h p : ∀ s s' r,
  mkdir_parents h p true s = (s', r) →
  extends s s' ∧
  match r with
  | Ok _ => is_dir (fs s') p = true
  | Raise _ => is_dir (fs s') p = false
  end.
Proof.
  induction p as [|name parent IH]; intros s s' r; rewrite mkdir_parents_unfold.
  - destruct (os_mkdir_outcome h [] s) as [? ? [=] | ? ? [=] | k Hk Hp].
    destruct k; try done;
      (intros Hf; apply reraise_result in Hf as [-> Hr]; split; [apply extends_refl |]);
      (destruct r; [exact Hr | by destruct Hr]).
  - destruct (os_mkdir_outcome h (name :: parent) s)
      as [? ? [= <- <-] Hparent Hnone Hd | ? ? [= <- <-] Hparent | k Hk Hp].
    + intros [= <- <-]. split; [repeat split; by apply insert_subseteq |].
      unfold is_dir. cbn [fs set_fs]. by rewrite stat_insert_self.
    + unfold bind. destruct (mkdir_parents h parent true s) as [s1 [[]|e1]] eqn:Hrec.
      * destruct (IH _ _ _ Hrec) as [Hext Hdir].
        intros Hhere. destruct (mkdir_here_result _ _ _ _ _ Hhere) as [Hext' Hr].
        split; [by eapply extends_trans |]. destruct r; [exact Hr | ].
        destruct Hr as [-> Hr]. exact Hr.
      * destruct (IH _ _ _ Hrec) as [Hext Hdir]. intros [= <- <-]. split; [done |].
        destruct (is_dir (fs s1) (name :: parent)) eqn:Hd; [|done].
        apply is_dir_parent in Hd. congruence.
    + destruct k; try done;
        (intros Hf; apply reraise_result in Hf as [-> Hr]; split; [apply extends_refl |]);
        (destruct r; [exact Hr | by destruct Hr]).
Qed.

(** Making a directory that is there changes nothing. *)
Lemma mkdir_parents_existing h p s :
  is_dir (fs s) p = true → mkdir_parents h p true s = (s, Ok tt).
Proof.
  intros Hdir. rewrite mkdir_parents_unfold.
  destruct (os_mkdir_outcome h p s) as [name parent -> Hparent Hnone Hd
                                       | name parent -> Hparent | k Hk Hp].
  - apply is_dir_inv in Hdir as [_ Hsome]. congruence.
  - apply is_dir_inv in Hdir as [Hsome _]. congruence.
  - destruct k; try done; unfold reraise_unless_dir; by rewrite Hdir.
Qed.

(** A failed attempt fails again, and changes nothing, when repeated on the
    state it left. *)
Lemma mkdir_parents_fails_again h p : ∀ s s' e,
  mkdir_parents h p true s = (s', Raise e) →
  ∃ e', mkdir_parents h p true s' = (s', Raise e').
Proof.
  induction p as [|name parent IH]; intros s s' e Hrun.
  - apply mkdir_parents_result in Hrun as [_ Hdir]. done.
  - pose proof Hrun as Hrun0. rewrite mkdir_parents_unfold in Hrun.
    destruct (os_mkdir_outcome h (name :: parent) s)
      as [? ? [= <- <-] Hparent Hnone Hd | ? ? [= <- <-] Hparent | k Hk Hp].
    + done.
    + unfold bind in Hrun.
      destruct (mkdir_parents h parent true s) as [s1 [[]|e1]] eqn:Hrec.
      * (* the parents were made, the directory itself was refused *)
        destruct (mkdir_parents_result _ _ _ _ _ Hrec) as [_ Hpdir].
        destruct (mkdir_here_result _ _ _ _ _ Hrun) as [_ [-> Hdir]].
        rewrite mkdir_here_unfold in Hrun. rewrite mkdir_parents_unfold.
        destruct (os_mkdir_outcome h (name :: parent) s1)
          as [? ? [= <- <-] Hparent' Hnone Hd | ? ? [= <- <-] Hparent' | k Hk Hp].
        -- done.
        -- unfold is_dir in Hpdir. by rewrite Hparent' in Hpdir.
        -- destruct k; try done; eauto.
      * (* making the parents failed *)
        injection Hrun as <- <-.
        destruct (IH _ _ _ Hrec) as [e' Hagain].
        destruct (mkdir_parents_result _ _ _ _ _ Hrec) as [_ Hpdir].
        rewrite mkdir_parents_unfold.
        destruct (os_mkdir_outcome h (name :: parent) s1)
          as [? ? [= <- <-] Hparent' Hnone Hd | ? ? [= <- <-] Hparent' | k Hk Hp].
        -- unfold is_dir in Hpdir. by rewrite Hparent' in Hpdir.
        -- unfold bind. rewrite Hagain. eauto.
        -- assert (is_dir (fs s1) (name :: parent) = false) as Hd.
           { destruct (is_dir (fs s1) (name :: parent)) eqn:Hd; [|done].
             apply is_dir_parent in Hd. congruence. }
           destruct k; try done; unfold reraise_unless_dir; rewrite Hd; cbn; eauto.
    + destruct k; try done; apply reraise_result in Hrun as [-> [-> Hd]]; eauto.
Qed.


Lemma make_all_result h l : ∀ s s' r,
  for_each l (fun d => mkdir_parents h d true) s = (s', r) →
  extends s s' ∧
  match r with
  | Ok _ => Forall (fun d => is_dir (fs s') d = true) l
  | Raise _ => ∃ e', for_each l (fun d => mkdir_parents h d true) s' = (s', Raise e')
  end.
Proof.
  induction l as [|d rest IH]; intros s s' r; cbn [for_each].
  - intros [= <- <-]. split; [apply extends_refl | constructor].
  - unfold bind. destruct (mkdir_parents h d true s) as [s1 [[]|e1]] eqn:Hd.
    + intros Hrest. destruct (IH _ _ _ Hrest) as [Hext Hr].
      destruct (mkdir_parents_result _ _ _ _ _ Hd) as [Hext1 Hdir].
      assert (is_dir (fs s') d = true) as Hdir'
        by (eapply is_dir_mono; [apply Hext | done]).
      split; [by eapply extends_trans |]. destruct r as [[]|e].
      * by constructor.
      * destruct Hr as [e' Hagain]. exists e'.
        by rewrite (mkdir_parents_existing _ _ _ Hdir').
    + intros [= <- <-].
      destruct (mkdir_parents_result _ _ _ _ _ Hd) as [Hext1 _].
      split; [done |]. destruct (mkdir_parents_fails_again _ _ _ _ _ Hd) as [e' Hagain].
      exists e'. by rewrite Hagain.
Qed.

Lemma make_all_existing h l s :
  Forall (fun d => is_dir (fs s) d = true) l →
  for_each l (fun d => mkdir_parents h d true) s = (s, Ok tt).
Proof.
  induction 1 as [|d rest Hd _ IH]; [done |]. cbn [for_each]. unfold bind.
  by rewrite (mkdir_parents_existing _ _ _ Hd).
Qed.

(** The operations ask the host only whether a path is denied. *)
Lemma os_mkdir_denied h h' p s : denied h' = denied h → os_mkdir h' p s = os_mkdir h p s.
Proof. intros Heq. unfold os_mkdir. by rewrite Heq. Qed.

Lemma mkdir_parents_denied h h' p : denied h' = denied h →
  ∀ s, mkdir_parents h' p true s = mkdir_parents h p true s.
Proof.
  intros Heq. induction p as [|name parent IH]; intros s;
    rewrite !mkdir_parents_unfold, (os_mkdir_denied _ _ _ _ Heq); [done |].
  destruct (os_mkdir h (name :: parent) s) as [s1 [a|[| | | |k q]]]; try done.
  destruct k; try done. unfold bind. rewrite IH.
  destruct (mkdir_parents h parent true s1) as [s2 [[]|e]]; [|done].
  by rewrite !mkdir_here_unfold, (os_mkdir_denied _ _ _ _ Heq).
Qed.

Lemma make_all_denied h h' l : denied h' = denied h →
  ∀ s, for_each l (fun d => mkdir_parents h' d true) s
       = for_each l (fun d => mkdir_parents h d true) s.
Proof.
  intros Heq. induction l as [|d rest IH]; intros s; [done |]. cbn [for_each].
  unfold bind. rewrite (mkdir_parents_denied _ _ _ Heq).
  by destruct (mkdir_parents h d true s) as [s1 [[]|e]].
Qed.

(** Writing a file that is not there: it is created under its directory, or
    the write fails -- whatever the body -- and changes nothing. *)
Lemma write_file_absent h p body s :
  exists_ (fs s) p = false →
  (∃ s', write_file h p body s = (s', Ok tt) ∧ extends s s' ∧
         stat (fs s') p = Found (File body)) ∨
  (∃ e, ∀ h' body', denied h' = denied h →
        write_file h' p body' s = (s, Raise e)).
Proof.
  unfold exists_, write_file. destruct p as [|name parent]; [done |]. cbn [stat].
  destruct (stat (fs s) parent) as [[|b]| |] eqn:Hparent; try (right; by eauto).
  destruct (fs s !! (name :: parent)) as [n|] eqn:Hp; [done |]. intros _.
  destruct (denied h (name :: parent)) eqn:Hd.
  - right. eexists. intros h' body' ->. by rewrite Hd.
  - left. eexists. split; [done |]. split.
    + repeat split. by apply insert_subseteq.
    + cbn [fs set_fs]. by apply stat_insert_self.
Qed.

Lemma setup_unfold h s :
  setup_user_environment h s =
    match home_dir h with
    | None => (s, Raise (RuntimeError "Could not determine home directory."))
    | Some home =>
        match for_each (directories home) (fun d => mkdir_parents h d true) s with
        | (s1, Ok _) =>
            if exists_ (fs s1) (sample_notebook home) then (s1, Ok tt)
            else write_file h (sample_notebook home) (Json (welcome_content h home) 2) s1
        | (s1, Raise e) => (s1, Raise e)
        end
    end.
Proof.
  unfold setup_user_environment, path_home, bind.
  destruct (home_dir h) as [home|]; [|done]. cbn [ret].
  change (for_each _ _ s) with (for_each (directories home) (fun d => mkdir_parents h d true) s).
  destruct (for_each _ _ s) as [s1 [[]|e]]; [|done].
  change (exists_ (fs s1) _) with (exists_ (fs s1) (sample_notebook home)).
  by destruct (exists_ (fs s1) (sample_notebook home)).
Qed.

Lemma exists_found t p n : stat t p = Found n → exists_ t p = true.
Proof. unfold exists_. by intros ->. Qed.

(** A second run of the setup changes nothing. *)
Lemma setup_again h h' s :
  home_dir h' = home_dir h → denied h' = denied h →
  (setup_user_environment h' (setup_user_environment h s).1).1
    = (setup_user_environment h s).1.
Proof.
  intros Hhome Hdenied. rewrite (setup_unfold h s), setup_unfold, Hhome.
  destruct (home_dir h) as [home|]; [|done].
  destruct (for_each _ _ s) as [s1 [[]|e]] eqn:Hmake;
    destruct (make_all_result _ _ _ _ _ Hmake) as [Hext Hr].
  - destruct (exists_ (fs s1) (sample_notebook home)) eqn:Hthere.
    + cbn [fst]. rewrite (make_all_denied _ _ _ Hdenied), (make_all_existing _ _ _ Hr).
      by rewrite Hthere.
    + destruct (write_file_absent h (sample_notebook home)
                  (Json (welcome_content h home) 2) s1 Hthere)
        as [(s2 & Hwrite & Hext2 & Hfile) | (e & Hfail)].
      * rewrite Hwrite. cbn [fst].
        rewrite (make_all_denied _ _ _ Hdenied), make_all_existing.
        -- by rewrite (exists_found _ _ _ Hfile).
        -- eapply Forall_impl; [exact Hr |]. intros d Hd.
           eapply is_dir_mono; [apply Hext2 | done].
      * rewrite (Hfail h _ eq_refl). cbn [fst].
        rewrite (make_all_denied _ _ _ Hdenied), (make_all_existing _ _ _ Hr), Hthere.
        by rewrite (Hfail h' _ Hdenied).
  - cbn [fst]. destruct Hr as [e' Hagain].
    by rewrite (make_all_denied _ _ _ Hdenied), Hagain.
Qed.

(** The setup leaves a sample notebook that is there as it is. *)
Lemma setup_keeps_notebook h s home n :
  home_dir h = Some home →
  stat (fs s) (sample_notebook home) = Found n →
  stat (fs (setup_user_environment h s).1) (sample_notebook home) = Found n.
Proof.
  intros Hhome Hfile. rewrite setup_unfold, Hhome.
  destruct (for_each _ _ s) as [s1 [[]|e]] eqn:Hmake;
    destruct (make_all_result _ _ _ _ _ Hmake) as [Hext _];
    assert (stat (fs s1) (sample_notebook home) = Found n) as Hfile1
      by (eapply stat_mono; [apply Hext | done]); [|done].
  by rewrite (exists_found _ _ _ Hfile1).
Qed.

(** The setup touches nothing but the filesystem. *)
Lemma setup_fs_only h s :
  cfg (setup_user_environment h s).1 = cfg s ∧
  out (setup_user_environment h s).1 = out s ∧
  log (setup_user_environment h s).1 = log s.
Proof.
  rewrite setup_unfold. destruct (home_dir h) as [home|]; [|done].
  destruct (for_each _ _ s) as [s1 [[]|e]] eqn:Hmake;
    destruct (make_all_result _ _ _ _ _ Hmake) as [(Hc & Ho & Hl & _) _]; [|done].
  destruct (exists_ (fs s1) (sample_notebook home)) eqn:Hthere; [done |].
  destruct (write_file_absent h (sample_notebook home)
              (Json (welcome_content h home) 2) s1 Hthere)
    as [(s2 & -> & (Hc2 & Ho2 & Hl2 & _) & _) | (e & Hfail)].
  - cbn [fst]. split_and!; congruence.
  - by rewrite (Hfail h _ eq_refl).
Qed.

End FsFacts.

(** * The lab configuration *)

Module LabFacts.
Import Fs Lab Text Builtins FsFacts.
Local Open Scope py_scope.








(** The blocks of the script, unfolded for the frame tactic. *)
Ltac blocks :=
  unfold server, files_and_security, kernels_and_lab, performance_and_ui,
    switches_and_notebooks, banner.



Lemma server_port h s n :
  Builtins.py_int (environ_get_val h "JUPYTER_PORT" (VInt 8888)) = Ok n →
  ∃ s', server h s = (s', Ok tt) ∧ cfg s' !! "ServerApp.port" = Some (VInt n).
Proof.
  intros Hport. unfold server, bind, lift. cbn. rewrite Hport.
  destruct (truthy _); eexists; (split; [reflexivity |]); cbn; by lookups.
Qed.




Lemma banner_run h s :
  ∃ lines, length lines = 6%nat ∧
    banner h s = ({| cfg := cfg s; fs := fs s; out := out s ++ lines; log := log s |}, Ok tt).
Proof.
  eexists [_; _; _; _; _; _]. split; [done |].
  unfold banner, bind, print, attr, add_out. cbn. by rewrite <- !app_assoc.
Qed.

(** C4: whatever exception the setup raises, the script catches it, prints
    the warning with it, and goes on to its end: the banner follows the
    warning, the script ends normally, and nothing else has changed. *)
Theorem setup_failure_is_caught (h : Host) (s0 s1 s2 : State) (e : exn) :
  settings h s0 = (s1, Ok tt) →
  setup_user_environment h s1 = (s2, Raise e) →
  ∃ s3 banner_lines,
    jupyter_lab_config h s0 = (s3, Ok tt) ∧
    length banner_lines = 6%nat ∧
    out s3 = out s2
             ++ [ Lit "Warning: Could not set up user environment: "; Err e ]
             :: banner_lines ∧
    cfg s3 = cfg s2 ∧ fs s3 = fs s2 ∧ log s3 = log s2.
Proof.
  intros Hsettings Hsetup. unfold jupyter_lab_config.
  rewrite (bind_ok _ _ _ _ _ Hsettings).
  assert (startup h s1
          = (add_out [ Lit "Warning: Could not set up user environment: "; Err e ] s2,
             Ok tt)) as Hstartup
    by (unfold startup, try_except; by rewrite Hsetup).
  rewrite (bind_ok _ _ _ _ _ Hstartup).
  destruct (banner_run h (add_out [ Lit "Warning: Could not set up user environment: ";
                                    Err e ] s2)) as (lines & Hlen & ->).
  eexists _, lines. split; [done |]. split; [done |]. cbn.
  by rewrite <- app_assoc.
Qed.

Lemma setup_failure_is_caught_witness :
  ∃ s3 banner_lines,
    jupyter_lab_config (host_denying [ "data"; "jovyan"; "home" ]) empty_state
      = (s3, Ok tt) ∧
    length banner_lines = 6%nat ∧
    out s3 =
      [ Lit "Warning: Could not set up user environment: ";
        Err (OSError PermissionError [ "data"; "jovyan"; "home" ]) ] :: banner_lines.
Proof.
  destruct (setup_failure_is_caught
              (host_denying [ "data"; "jovyan"; "home" ]) empty_state
              (settings (host_denying [ "data"; "jovyan"; "home" ]) empty_state).1
              (setup_user_environment (host_denying [ "data"; "jovyan"; "home" ])
                 (settings (host_denying [ "data"; "jovyan"; "home" ]) empty_state).1).1
              (OSError PermissionError [ "data"; "jovyan"; "home" ]))
    as (s3 & lines & Hrun & Hlen & Hout & _).
  - apply run_eta. reflexivity.
  - apply run_eta. reflexivity.
  - exists s3, lines. split; [exact Hrun |]. split; [exact Hlen |]. exact Hout.
Defined.

(** ** Numerals that do not parse *)

Lemma py_int_environ_raise h name fallback e :
  Builtins.py_int (environ_get_val h name (VInt fallback)) = Raise e →
  ∃ bad, e = ValueError "int" bad.
Proof.
  unfold environ_get_val. destruct (environ h !! name) as [v|]; [|done]. cbn.
  destruct (int_of_str v); [done |]. intros [= <-]. eauto.
Qed.

Lemma py_float_text_raise s e :
  Builtins.py_float (VStr s) = Raise e → e = ValueError "float" s.
Proof. cbn. destruct (float_of_str s); [done |]. by intros [= <-]. Qed.

Lemma kubernetes_bad_limit h s value :
  environ h !! "JUPYTERHUB_CPU_LIMIT" = Some value → float_of_str value = None →
  ∃ s', Hub.kubernetes h s = (s', Raise (ValueError "float" value)) ∧
        cfg s' !! "KubeSpawner.cpu_limit" = cfg s !! "KubeSpawner.cpu_limit" ∧
        cfg s' !! "KubeSpawner.cpu_guarantee" = cfg s !! "KubeSpawner.cpu_guarantee".
Proof.
  intros Hset Hbad. unfold Hub.kubernetes, bind, lift, assign, environ_get_or.
  rewrite Hset. cbn. rewrite Hbad. eexists. split; [reflexivity |]. cbn.
  split; by lookups.
Qed.

Lemma kubernetes_bad_guarantee h s value :
  environ h !! "JUPYTERHUB_CPU_GUARANTEE" = Some value → float_of_str value = None →
  ∃ s' bad, Hub.kubernetes h s = (s', Raise (ValueError "float" bad)) ∧
        cfg s' !! "KubeSpawner.cpu_guarantee" = cfg s !! "KubeSpawner.cpu_guarantee".
Proof.
  intros Hset Hbad.
  assert (Builtins.py_float (VStr (environ_get_or h "JUPYTERHUB_CPU_GUARANTEE" "0.5"))
          = Raise (ValueError "float" value)) as Hguarantee
    by (unfold environ_get_or; rewrite Hset; cbn; by rewrite Hbad).
  unfold Hub.kubernetes, bind, lift, assign.
  destruct (Builtins.py_float (VStr (environ_get_or h "JUPYTERHUB_CPU_LIMIT" "1.0")))
    as [f|e] eqn:Hlimit.
  - rewrite Hguarantee.
    eexists _, _. split; [reflexivity |]. cbn. by lookups.
  - apply py_float_text_raise in Hlimit as ->.
    eexists _, _. split; [reflexivity |]. cbn. by lookups.
Qed.

Lemma server_bad_port h s value :
  environ h !! "JUPYTER_PORT" = Some value → int_of_str value = None →
  ∃ s', server h s = (s', Raise (ValueError "int" value)) ∧
        cfg s' !! "ServerApp.port" = cfg s !! "ServerApp.port" ∧
        cfg s' !! "MappingKernelManager.cull_idle_timeout"
          = cfg s !! "MappingKernelManager.cull_idle_timeout".
Proof.
  intros Hset Hbad. unfold server, bind, lift, assign, environ_get_val.
  rewrite Hset. cbn. rewrite Hbad. eexists. split; [reflexivity |]. cbn.
  split; by lookups.
Qed.


Lemma server_total h s n :
  Builtins.py_int (environ_get_val h "JUPYTER_PORT" (VInt 8888)) = Ok n →
  ∃ s', server h s = (s', Ok tt).
Proof. intros Hport. destruct (server_port h s n Hport) as (s' & ? & _). eauto. Qed.

Lemma files_and_security_total h s : ∃ s', files_and_security h s = (s', Ok tt).
Proof. eexists. reflexivity. Qed.

Lemma kernels_bad_timeout h s value :
  environ h !! "JUPYTER_KERNEL_TIMEOUT" = Some value → int_of_str value = None →
  kernels_and_lab h s = (s, Raise (ValueError "int" value)).
Proof.
  intros Hset Hbad. unfold kernels_and_lab, bind, lift, environ_get_val.
  rewrite Hset. cbn. by rewrite Hbad.
Qed.

(** C9: a value of JUPYTERHUB_CPU_LIMIT or JUPYTERHUB_CPU_GUARANTEE that is
    no float, or of JUPYTER_PORT or JUPYTER_KERNEL_TIMEOUT that is no
    integer, makes its script end with a ValueError; the setting is not
    assigned, so no default takes the place of the value. *)
Theorem numeric_parsing_is_unguarded (h : Host) (s0 : State) (value : string) :
  (environ h !! "JUPYTERHUB_CPU_LIMIT" = Some value → float_of_str value = None →
     ∃ s, Hub.jupyterhub_config h s0 = (s, Raise (ValueError "float" value)) ∧
          cfg s !! "KubeSpawner.cpu_limit" = cfg s0 !! "KubeSpawner.cpu_limit") ∧
  (environ h !! "JUPYTERHUB_CPU_GUARANTEE" = Some value → float_of_str value = None →
     ∃ s bad, Hub.jupyterhub_config h s0 = (s, Raise (ValueError "float" bad)) ∧
          cfg s !! "KubeSpawner.cpu_guarantee" = cfg s0 !! "KubeSpawner.cpu_guarantee") ∧
  (environ h !! "JUPYTER_PORT" = Some value → int_of_str value = None →
     ∃ s, jupyter_lab_config h s0 = (s, Raise (ValueError "int" value)) ∧
          cfg s !! "ServerApp.port" = cfg s0 !! "ServerApp.port") ∧
  (environ h !! "JUPYTER_KERNEL_TIMEOUT" = Some value → int_of_str value = None →
     ∃ s bad, jupyter_lab_config h s0 = (s, Raise (ValueError "int" bad)) ∧
          cfg s !! "MappingKernelManager.cull_idle_timeout"
            = cfg s0 !! "MappingKernelManager.cull_idle_timeout").
Proof.
  split_and!; intros Hset Hbad.
  - destruct (HubFacts.basic_run h s0) as (s1 & Hbasic & _).
    destruct (kubernetes_bad_limit h s1 value Hset Hbad) as (s2 & Hk & Hlimit & _).
    exists s2. unfold Hub.jupyterhub_config.
    rewrite (bind_ok _ _ _ _ _ Hbasic), (bind_raise _ _ _ _ _ Hk). split; [done |].
    rewrite Hlimit. apply (keeps_run _ _ _ _ _ Hbasic). unfold Hub.basic. frame.
  - destruct (HubFacts.basic_run h s0) as (s1 & Hbasic & _).
    destruct (kubernetes_bad_guarantee h s1 value Hset Hbad) as (s2 & bad & Hk & Hg).
    exists s2, bad. unfold Hub.jupyterhub_config.
    rewrite (bind_ok _ _ _ _ _ Hbasic), (bind_raise _ _ _ _ _ Hk). split; [done |].
    rewrite Hg. apply (keeps_run _ _ _ _ _ Hbasic). unfold Hub.basic. frame.
  - destruct (server_bad_port h s0 value Hset Hbad) as (s1 & Hserver & Hport & _).
    exists s1. unfold jupyter_lab_config, settings.
    by rewrite (bind_raise _ _ _ _ _ (bind_raise _ _ _ _ _ Hserver)).
  - destruct (Builtins.py_int (environ_get_val h "JUPYTER_PORT" (VInt 8888)))
      as [n|e] eqn:Hport.
    + destruct (server_total h s0 n Hport) as (s1 & Hserver).
      destruct (files_and_security_total h s1) as (s2 & Hfiles).
      exists s2, value. unfold jupyter_lab_config, settings.
      erewrite bind_raise.
      2:{ rewrite (bind_ok _ _ _ _ _ Hserver), (bind_ok _ _ _ _ _ Hfiles).
          apply bind_raise. by apply kernels_bad_timeout. }
      split; [done |].
      rewrite (keeps_run _ _ _ _ _ Hfiles) by (blocks; frame).
      apply (keeps_run _ _ _ _ _ Hserver). blocks; frame.
    + destruct (py_int_environ_raise _ _ _ _ Hport) as [bad ->].
      assert (∃ v, environ h !! "JUPYTER_PORT" = Some v ∧ int_of_str v = None ∧ bad = v)
        as (v & Hv & Hvbad & ->).
      { unfold environ_get_val in Hport.
        destruct (environ h !! "JUPYTER_PORT") as [v|]; [|done]. cbn in Hport.
        destruct (int_of_str v) eqn:Hv; [done |]. injection Hport as <-. eauto. }
      destruct (server_bad_port h s0 v Hv Hvbad) as (s1 & Hserver & _ & Htimeout).
      exists s1, v. unfold jupyter_lab_config, settings.
      by rewrite (bind_raise _ _ _ _ _ (bind_raise _ _ _ _ _ Hserver)).
Qed.

Lemma numeric_parsing_is_unguarded_witness :
  (∃ s, Hub.jupyterhub_config (host_with [ ("JUPYTERHUB_CPU_LIMIT", "two") ]) empty_state
        = (s, Raise (ValueError "float" "two"))) ∧
  (∃ s bad, Hub.jupyterhub_config (host_with [ ("JUPYTERHUB_CPU_GUARANTEE", "half") ])
              empty_state = (s, Raise (ValueError "float" bad))) ∧
  (∃ s, jupyter_lab_config (host_with [ ("JUPYTER_PORT", "http") ]) empty_state
        = (s, Raise (ValueError "int" "http"))) ∧
  (∃ s bad, jupyter_lab_config (host_with [ ("JUPYTER_KERNEL_TIMEOUT", "1h") ])
              empty_state = (s, Raise (ValueError "int" bad))).
Proof.
  split_and!.
  - destruct (proj1 (numeric_parsing_is_unguarded
                       (host_with [ ("JUPYTERHUB_CPU_LIMIT", "two") ]) empty_state "two")
                eq_refl eq_refl) as (s & Hs & _).
    by exists s.
  - destruct (proj1 (proj2 (numeric_parsing_is_unguarded
                       (host_with [ ("JUPYTERHUB_CPU_GUARANTEE", "half") ]) empty_state "half"))
                eq_refl eq_refl) as (s & bad & Hs & _).
    by exists s, bad.
  - destruct (proj1 (proj2 (proj2 (numeric_parsing_is_unguarded
                       (host_with [ ("JUPYTER_PORT", "http") ]) empty_state "http")))
                eq_refl eq_refl) as (s & Hs & _).
    by exists s.
  - destruct (proj2 (proj2 (proj2 (numeric_parsing_is_unguarded
                       (host_with [ ("JUPYTER_KERNEL_TIMEOUT", "1h") ]) empty_state "1h")))
                eq_refl eq_refl) as (s & bad & Hs & _).
    by exists s, bad.
Defined.

(** C2: run on the state a first run has left -- be it under another
    environment -- the setup changes nothing, so the directories after two
    runs are those after one; and a sample notebook that is there before a
    run is there after it with the same contents. *)
Theorem setup_user_environment_idempotent
    (h : Host) (env' : gmap string string) (s : State) :
  let once := (setup_user_environment h s).1 in
  let twice := (setup_user_environment (with_environ env' h) once).1 in
  twice = once ∧
  (∀ p, is_directory (fs twice) p ↔ is_directory (fs once) p) ∧
  (∀ home body,
     home_dir h = Some home →
     stat (fs s) (sample_notebook home) = Found (File body) →
     stat (fs once) (sample_notebook home) = Found (File body) ∧
     stat (fs twice) (sample_notebook home) = Found (File body)).
Proof.
  intros once twice.
  assert (twice = once) as Heq by (by apply setup_again).
  split; [done |]. split; [by rewrite Heq |].
  intros home body Hhome Hfile. rewrite Heq.
  split; by apply setup_keeps_notebook.
Qed.

Lemma setup_user_environment_idempotent_witness :
  stat (fs (setup_user_environment (host_with []) state_with_notebook).1)
    (sample_notebook [ "jovyan"; "home" ])
  = Found (File (Text "my own notes")).
Proof.
  pose proof (setup_user_environment_idempotent (host_with []) ∅ state_with_notebook)
    as (_ & _ & Hkept).
  apply (Hkept [ "jovyan"; "home" ] (Text "my own notes")); reflexivity.
Defined.

(** A first run on an empty filesystem makes the four directories and the
    notebook. *)
Example setup_on_empty_filesystem :
  let s := (setup_user_environment (host_with []) empty_state).1 in
  Forall (fun d => is_dir (fs s) d = true) (directories [ "jovyan"; "home" ]) ∧
  stat (fs s) (sample_notebook [ "jovyan"; "home" ])
  = Found (File (Json (welcome_content (host_with []) [ "jovyan"; "home" ]) 2)).
Proof. cbn zeta. split; [by repeat constructor | reflexivity]. Qed.

End LabFacts.

(** * The hub configuration and its hooks, further *)

Module HubBehaviour.
Import Hub HubFacts.
Local Open Scope py_scope.

Lemma kubernetes_ok_inv h s s' :
  kubernetes h s = (s', Ok tt) →
  ∃ f1 f2,
    Builtins.py_float (VStr (environ_get_or h "JUPYTERHUB_CPU_LIMIT" "1.0")) = Ok f1 ∧
    Builtins.py_float (VStr (environ_get_or h "JUPYTERHUB_CPU_GUARANTEE" "0.5")) = Ok f2 ∧
    cfg s' !! "KubeSpawner.image_spec"
      = Some (VStr (environ_get_or h "JUPYTERHUB_SINGLEUSER_IMAGE"
                      "kubeadm-python-cluster/jupyterlab:3.11")) ∧
    cfg s' !! "KubeSpawner.cpu_limit" = Some (VFloat f1) ∧
    cfg s' !! "KubeSpawner.mem_limit"
      = Some (VStr (environ_get_or h "JUPYTERHUB_MEM_LIMIT" "2G")) ∧
    cfg s' !! "KubeSpawner.cpu_guarantee" = Some (VFloat f2) ∧
    cfg s' !! "KubeSpawner.mem_guarantee"
      = Some (VStr (environ_get_or h "JUPYTERHUB_MEM_GUARANTEE" "1G")).
Proof.
  unfold kubernetes, bind, lift, attr, assign.
  destruct (Builtins.py_float _) as [f1|e1]; [|discriminate].
  destruct (Builtins.py_float _) as [f2|e2]; [|discriminate].
  intros [= <-]. exists f1, f2. cbn. split; [done |]. split; [done |].
  split_and!; by lookups.
Qed.

Lemma logging_level s s' :
  logging s = (s', Ok tt) → cfg s' !! "JupyterHub.log_level" = Some (VInt 20).
Proof. intros [= <-]. cbn. by lookups. Qed.

Lemma debugging_levels h s :
  if String.eqb (Text.lower (environ_get_or h "JUPYTERHUB_DEBUG" "False")) "true"
  then cfg (debugging h s).1 !! "JupyterHub.log_level" = Some (VInt 10) ∧
       cfg (debugging h s).1 !! "Application.log_level" = Some (VInt 10)
  else cfg (debugging h s).1 !! "JupyterHub.log_level" = cfg s !! "JupyterHub.log_level" ∧
       cfg (debugging h s).1 !! "Application.log_level" = cfg s !! "Application.log_level".
Proof.
  unfold debugging.
  destruct (String.eqb _ _) eqn:Hword;
    (split; rewrite bind_then_keeps by (intros _; blocks; frame);
     unfold debug_switch; rewrite Hword; cbn; by lookups).
Qed.

(** X1: once the two CPU values parse, the hub log level follows the debug
    switch: with JUPYTERHUB_DEBUG spelling 'true' in any capitalisation both
    JupyterHub.log_level and Application.log_level are DEBUG (10), the INFO
    assigned earlier being overwritten; with any other value, or none, the
    hub level is INFO (20) and Application.log_level is left as it was. *)
Theorem hub_log_level_follows_debug_switch (h : Host) (s0 : State) (f1 f2 : pyfloat) :
  Builtins.py_float (VStr (environ_get_or h "JUPYTERHUB_CPU_LIMIT" "1.0")) = Ok f1 →
  Builtins.py_float (VStr (environ_get_or h "JUPYTERHUB_CPU_GUARANTEE" "0.5")) = Ok f2 →
  (Text.lower (environ_get_or h "JUPYTERHUB_DEBUG" "False") = "true" →
     cfg (jupyterhub_config h s0).1 !! "JupyterHub.log_level" = Some (VInt 10) ∧
     cfg (jupyterhub_config h s0).1 !! "Application.log_level" = Some (VInt 10)) ∧
  (Text.lower (environ_get_or h "JUPYTERHUB_DEBUG" "False") ≠ "true" →
     cfg (jupyterhub_config h s0).1 !! "JupyterHub.log_level" = Some (VInt 20) ∧
     cfg (jupyterhub_config h s0).1 !! "Application.log_level"
       = cfg s0 !! "Application.log_level").
Proof.
  intros Hl Hg.
  destruct (hub_reaches_debugging h s0 f1 f2 Hl Hg)
    as (s1 & s2 & s3 & s4 & s5 & s6 & s7 & s8 & s9 & s10 &
        H1 & H2 & H3 & H4 & H5 & H6 & H7 & H8 & H9 & H10 & ->).
  rewrite !(bind_then_keeps _ (debugging h)) by (intros _; blocks; frame).
  pose proof (debugging_levels h s10) as Hdebug.
  pose proof (logging_level _ _ H5) as Hinfo.
  split; intros Hword.
  - apply String.eqb_eq in Hword. by rewrite Hword in Hdebug.
  - apply String.eqb_neq in Hword. rewrite Hword in Hdebug.
    destruct Hdebug as [-> ->]. split.
    + kept H10. kept H9. kept H8. kept H7. kept H6. exact Hinfo.
    + kept H10. kept H9. kept H8. kept H7. kept H6. kept H5. kept H4. kept H3.
      kept H2. kept H1. done.
Qed.

Lemma hub_log_level_follows_debug_switch_witness :
  cfg (jupyterhub_config (host_with [ ("JUPYTERHUB_DEBUG", "TRUE") ]) empty_state).1
    !! "JupyterHub.log_level" = Some (VInt 10) ∧
  cfg (jupyterhub_config (host_with [ ("JUPYTERHUB_DEBUG", "yes") ]) empty_state).1
    !! "JupyterHub.log_level" = Some (VInt 20).
Proof.
  split.
  - apply (hub_log_level_follows_debug_switch
             (host_with [ ("JUPYTERHUB_DEBUG", "TRUE") ]) empty_state
             (FDec false 10 (-1)) (FDec false 5 (-1))); reflexivity.
  - apply (proj2 (hub_log_level_follows_debug_switch
             (host_with [ ("JUPYTERHUB_DEBUG", "yes") ]) empty_state
             (FDec false 10 (-1)) (FDec false 5 (-1)) eq_refl eq_refl)).
    discriminate.
Defined.

Lemma services_assigned s s' :
  services s = (s', Ok tt) →
  cfg s' !! "JupyterHub.services" = Some (VList [ idle_culler ]).
Proof. intros [= <-]. cbn. by lookups. Qed.

Lemma health_run s l :
  cfg s !! "JupyterHub.services" = Some (VList l) →
  ∃ s', health s = (s', Ok tt) ∧
        cfg s' !! "JupyterHub.services" = Some (VList (l ++ [ health_check ])) ∧
        log s' = log s.
Proof.
  intros Hservices. unfold health, bind, attr, lift, assign. rewrite Hservices.
  cbn. eexists. split; [reflexivity |]. cbn. split; [by lookups | done].
Qed.

Lemma startup_messages_logged s :
  cfg s !! "JupyterHub.log" = Some Logger →
  ∃ lines, length lines = 4%nat ∧
    startup_messages s
      = ({| cfg := cfg s; fs := fs s; out := out s; log := log s ++ lines |}, Ok tt).
Proof.
  intros Hlogger. eexists [_; _; _; _]. split; [done |].
  unfold startup_messages, bind, attr, info_method, log_info, add_log.
  repeat (rewrite Hlogger; cbn). by rewrite <- !app_assoc.
Qed.

Lemma startup_messages_stop s :
  is_logger (default (VObj "LazyConfigValue") (cfg s !! "JupyterHub.log")) = false →
  startup_messages s = (s, Raise (AttributeError "info")).
Proof. intros Hnone. unfold startup_messages, bind, attr, info_method. by rewrite Hnone. Qed.

Lemma debug_switch_total h s : ∃ s', debug_switch h s = (s', Ok tt).
Proof. unfold debug_switch. destruct (String.eqb _ _); eexists; reflexivity. Qed.

Ltac silent H := rewrite (quiet_run _ _ _ _ H) by (blocks; hush).

(** X2: run on a configuration object that holds nothing at
    [JupyterHub.log] -- the script assigns nothing there -- and with the two
    CPU values floats, the script stops at its first startup message (line
    285) with [AttributeError]: the health check of lines 295-318 is never
    registered, so the idle culler, an admin service, is the one service,
    and none of the startup messages is logged. *)
Theorem hub_stops_at_first_startup_message (h : Host) (s0 : State) (f1 f2 : pyfloat) :
  cfg s0 !! "JupyterHub.log" = None →
  Builtins.py_float (VStr (environ_get_or h "JUPYTERHUB_CPU_LIMIT" "1.0")) = Ok f1 →
  Builtins.py_float (VStr (environ_get_or h "JUPYTERHUB_CPU_GUARANTEE" "0.5")) = Ok f2 →
  (jupyterhub_config h s0).2 = Raise (AttributeError "info") ∧
  cfg (jupyterhub_config h s0).1 !! "JupyterHub.services" = Some (VList [ idle_culler ]) ∧
  dict_get "name" idle_culler = Some (VStr "idle-culler") ∧
  dict_get "admin" idle_culler = Some (VBool true) ∧
  log (jupyterhub_config h s0).1 = log s0.
Proof.
  intros Hfresh Hl Hg.
  destruct (hub_reaches_debugging h s0 f1 f2 Hl Hg)
    as (s1 & s2 & s3 & s4 & s5 & s6 & s7 & s8 & s9 & s10 &
        H1 & H2 & H3 & H4 & H5 & H6 & H7 & H8 & H9 & H10 & ->).
  destruct (debug_switch_total h s10) as (s11 & H11).
  assert (cfg s11 !! "JupyterHub.log" = None) as Hlog.
  { kept H11. kept H10. kept H9. kept H8. kept H7. kept H6. kept H5. kept H4. kept H3.
    kept H2. kept H1. done. }
  assert (debugging h s10 = (s11, Raise (AttributeError "info"))) as Hstop.
  { unfold debugging. rewrite (bind_ok _ _ _ _ _ H11).
    apply startup_messages_stop. by rewrite Hlog. }
  rewrite (bind_raise _ _ _ _ _ Hstop). cbn [fst snd].
  split_and!; [done | | done | done | ].
  - kept H11. kept H10. kept H9. kept H8. kept H7. exact (services_assigned _ _ H6).
  - silent H11. silent H10. silent H9. silent H8. silent H7. silent H6. silent H5.
    silent H4. silent H3. silent H2. silent H1. done.
Qed.

Lemma hub_stops_at_first_startup_message_witness :
  (jupyterhub_config (host_with []) empty_state).2 = Raise (AttributeError "info") ∧
  cfg (jupyterhub_config (host_with []) empty_state).1 !! "JupyterHub.services"
    = Some (VList [ idle_culler ]) ∧
  dict_get "name" idle_culler = Some (VStr "idle-culler") ∧
  dict_get "admin" idle_culler = Some (VBool true) ∧
  log (jupyterhub_config (host_with []) empty_state).1 = [].
Proof.
  apply (hub_stops_at_first_startup_message (host_with []) empty_state
           (FDec false 10 (-1)) (FDec false 5 (-1))); reflexivity.
Defined.

(** X15: run on a configuration object that was handed a logger at
    [JupyterHub.log], and with the two CPU values floats, the script runs to
    its end: the four startup messages are logged, and the services are
    the idle culler followed by the health check, which is no admin
    service. *)
Theorem hub_completes_with_logger (h : Host) (s0 : State) (f1 f2 : pyfloat) :
  cfg s0 !! "JupyterHub.log" = Some Logger →
  Builtins.py_float (VStr (environ_get_or h "JUPYTERHUB_CPU_LIMIT" "1.0")) = Ok f1 →
  Builtins.py_float (VStr (environ_get_or h "JUPYTERHUB_CPU_GUARANTEE" "0.5")) = Ok f2 →
  (jupyterhub_config h s0).2 = Ok tt ∧
  cfg (jupyterhub_config h s0).1 !! "JupyterHub.services"
    = Some (VList [ idle_culler; health_check ]) ∧
  dict_get "name" health_check = Some (VStr "health-check") ∧
  dict_get "admin" health_check = Some (VBool false) ∧
  ∃ lines, length lines = 4%nat ∧ log (jupyterhub_config h s0).1 = log s0 ++ lines.
Proof.
  intros Hlogger Hl Hg.
  destruct (hub_reaches_debugging h s0 f1 f2 Hl Hg)
    as (s1 & s2 & s3 & s4 & s5 & s6 & s7 & s8 & s9 & s10 &
        H1 & H2 & H3 & H4 & H5 & H6 & H7 & H8 & H9 & H10 & ->).
  destruct (debug_switch_total h s10) as (s11 & H11).
  assert (cfg s11 !! "JupyterHub.log" = Some Logger) as Hlog.
  { kept H11. kept H10. kept H9. kept H8. kept H7. kept H6. kept H5. kept H4. kept H3.
    kept H2. kept H1. done. }
  assert (cfg s11 !! "JupyterHub.services" = Some (VList [ idle_culler ])) as Hservices.
  { kept H11. kept H10. kept H9. kept H8. kept H7. exact (services_assigned _ _ H6). }
  assert (log s11 = log s0) as Hquiet.
  { silent H11. silent H10. silent H9. silent H8. silent H7. silent H6. silent H5.
    silent H4. silent H3. silent H2. silent H1. done. }
  destruct (startup_messages_logged s11 Hlog) as (lines & Hlen & Hstart).
  destruct (health_run {| cfg := cfg s11; fs := fs s11; out := out s11;
                          log := log s11 ++ lines |} [ idle_culler ] Hservices)
    as (s13 & Hhealth & Hboth & Hsame).
  unfold debugging.
  rewrite (bind_ok _ _ _ _ _ (eq_trans (bind_ok _ _ _ _ _ H11) Hstart)), Hhealth.
  cbn [fst snd]. split_and!; [done | exact Hboth | done | done |].
  exists lines. split; [exact Hlen |]. rewrite Hsame. cbn. by rewrite Hquiet.
Qed.

Lemma hub_completes_with_logger_witness :
  let s0 := {| cfg := {[ "JupyterHub.log" := Logger ]}; fs := ∅; out := []; log := [] |} in
  (jupyterhub_config (host_with []) s0).2 = Ok tt ∧
  cfg (jupyterhub_config (host_with []) s0).1 !! "JupyterHub.services"
    = Some (VList [ idle_culler; health_check ]) ∧
  dict_get "name" health_check = Some (VStr "health-check") ∧
  dict_get "admin" health_check = Some (VBool false) ∧
  ∃ lines, length lines = 4%nat ∧ log (jupyterhub_config (host_with []) s0).1 = [] ++ lines.
Proof.
  intros s0.
  apply (hub_completes_with_logger (host_with []) s0
           (FDec false 10 (-1)) (FDec false 5 (-1))); reflexivity.
Defined.

(** X3: with the image and the four resource variables unset, the global
    image and resource settings are, setting by setting, those of the
    override of the one profile flagged default. *)
Theorem hub_default_envelope_is_default_profile (h : Host) (s0 : State) :
  (∀ name, name ∈ [ "JUPYTERHUB_SINGLEUSER_IMAGE"; "JUPYTERHUB_CPU_LIMIT";
                    "JUPYTERHUB_MEM_LIMIT"; "JUPYTERHUB_CPU_GUARANTEE";
                    "JUPYTERHUB_MEM_GUARANTEE" ] → environ h !! name = None) →
  ∃ first override,
    cfg (jupyterhub_config h s0).1 !! "KubeSpawner.profile_list"
      = Some (VList profile_list) ∧
    filter (fun p => is_default p = true) profile_list = [ first ] ∧
    dict_get "kubespawner_override" first = Some override ∧
    ∀ setting,
      setting ∈ [ "image_spec"; "cpu_limit"; "mem_limit"; "cpu_guarantee";
                  "mem_guarantee" ] →
      cfg (jupyterhub_config h s0).1 !! ("KubeSpawner." +:+ setting)
        = dict_get setting override ∧
      is_Some (dict_get setting override).
Proof.
  intros Hunset.
  assert (∀ name fallback,
            name ∈ [ "JUPYTERHUB_SINGLEUSER_IMAGE"; "JUPYTERHUB_CPU_LIMIT";
                     "JUPYTERHUB_MEM_LIMIT"; "JUPYTERHUB_CPU_GUARANTEE";
                     "JUPYTERHUB_MEM_GUARANTEE" ] →
            environ_get_or h name fallback = fallback) as Hdefault
    by (intros name fallback Hname; unfold environ_get_or; by rewrite (Hunset _ Hname)).
  assert (Builtins.py_float (VStr (environ_get_or h "JUPYTERHUB_CPU_LIMIT" "1.0"))
          = Ok (FDec false 10 (-1))) as Hl by (rewrite Hdefault by set_solver; done).
  assert (Builtins.py_float (VStr (environ_get_or h "JUPYTERHUB_CPU_GUARANTEE" "0.5"))
          = Ok (FDec false 5 (-1))) as Hg by (rewrite Hdefault by set_solver; done).
  destruct (hub_reaches_debugging h s0 _ _ Hl Hg)
    as (s1 & s2 & s3 & s4 & s5 & s6 & s7 & s8 & s9 & s10 &
        H1 & H2 & H3 & H4 & H5 & H6 & H7 & H8 & H9 & H10 & ->).
  destruct (kubernetes_ok_inv _ _ _ H2)
    as (f1 & f2 & Hl' & Hg' & Himage & Hcl & Hml & Hcg & Hmg).
  rewrite Hl in Hl'. rewrite Hg in Hg'. injection Hl' as <-. injection Hg' as <-.
  rewrite Hdefault in Himage, Hml, Hmg by set_solver.
  eexists _, _. split_and!; [ | reflexivity | reflexivity | ].
  - past_tail h. kept H10. kept H9. kept H8. kept H7. kept H6. kept H5.
    injection H4 as <-. cbn. by lookups.
  - intros setting Hsetting.
    repeat (apply elem_of_cons in Hsetting as [-> | Hsetting]);
      [ | | | | | by apply elem_of_nil in Hsetting ];
      (split; [| by eexists]);
      cbn [String.append];
      past_tail h; kept H10; kept H9; kept H8; kept H7; kept H6; kept H5; kept H4; kept H3;
      assumption.
Qed.

Lemma hub_default_envelope_is_default_profile_witness :
  ∃ first override,
    cfg (jupyterhub_config (host_with [ ("JUPYTERHUB_DEBUG", "true") ]) empty_state).1
      !! "KubeSpawner.profile_list" = Some (VList profile_list) ∧
    filter (fun p => is_default p = true) profile_list = [ first ] ∧
    dict_get "kubespawner_override" first = Some override ∧
    ∀ setting,
      setting ∈ [ "image_spec"; "cpu_limit"; "mem_limit"; "cpu_guarantee";
                  "mem_guarantee" ] →
      cfg (jupyterhub_config (host_with [ ("JUPYTERHUB_DEBUG", "true") ]) empty_state).1
        !! ("KubeSpawner." +:+ setting) = dict_get setting override ∧
      is_Some (dict_get setting override).
Proof.
  apply (hub_default_envelope_is_default_profile
           (host_with [ ("JUPYTERHUB_DEBUG", "true") ]) empty_state).
  intros name Hname.
  repeat (apply elem_of_cons in Hname as [-> | Hname]); try reflexivity.
  by apply elem_of_nil in Hname.
Defined.

Lemma elem_of_list_to_set_string (x : string) (l : list string) :
  x ∈ (list_to_set l : gset string) ↔ x ∈ l.
Proof. apply elem_of_list_to_set. Qed.

(** X4: for a spawner whose environment holds no JUPYTER_ADMIN, the hook run
    with the configuration the script has built sets the flag exactly when
    the user name is, character for character, one of the pieces of
    JUPYTERHUB_ADMIN_USERS between its commas (of the default 'admin' when
    the variable is unset); a user name with a comma in it is never
    flagged. *)
Theorem admin_flag_iff_listed (h : Host) (s0 : State) (sp : Spawner) :
  environment sp !! "JUPYTER_ADMIN" = None →
  (environment (pre_spawn_hook h (cfg (jupyterhub_config h s0).1) sp).1
     !! "JUPYTER_ADMIN" = Some "1"
   ↔ user_name sp ∈ Text.split "," (environ_get_or h "JUPYTERHUB_ADMIN_USERS" "admin")) ∧
  (Text.contains_char "," (user_name sp) = true →
   environment (pre_spawn_hook h (cfg (jupyterhub_config h s0).1) sp).1
     !! "JUPYTER_ADMIN" = None).
Proof.
  intros Hclean.
  pose proof (pre_spawn_hook_admin_flag h _ _ sp (admin_users_assigned h s0))
    as (_ & Hin & Hout).
  rewrite elem_of_list_to_set_string in Hin, Hout.
  assert (environment (pre_spawn_hook h (cfg (jupyterhub_config h s0).1) sp).1
            !! "JUPYTER_ADMIN" = Some "1"
          ↔ user_name sp ∈ Text.split ","
                             (environ_get_or h "JUPYTERHUB_ADMIN_USERS" "admin")) as Hiff.
  { split; [| exact Hin]. intros Hflag.
    destruct (decide (user_name sp ∈ Text.split ","
                        (environ_get_or h "JUPYTERHUB_ADMIN_USERS" "admin")))
      as [Hyes | Hno]; [done |].
    destruct (Hout Hno) as [_ Hnone]. rewrite (Hnone Hclean) in Hflag. done. }
  split; [exact Hiff |]. intros Hcomma.
  assert (user_name sp ∉ Text.split ","
                           (environ_get_or h "JUPYTERHUB_ADMIN_USERS" "admin")) as Hno.
  { intros Hyes.
    pose proof (TextFacts.split_no_sep ","
                  (environ_get_or h "JUPYTERHUB_ADMIN_USERS" "admin")) as Hpieces.
    rewrite Forall_forall in Hpieces. specialize (Hpieces _ Hyes). congruence. }
  destruct (Hout Hno) as [_ Hnone]. by apply Hnone.
Qed.

Lemma admin_flag_iff_listed_witness :
  environment
    (pre_spawn_hook (host_with [ ("JUPYTERHUB_ADMIN_USERS", "alice, bob") ])
       (cfg (jupyterhub_config (host_with [ ("JUPYTERHUB_ADMIN_USERS", "alice, bob") ])
               empty_state).1)
       {| user_name := "bob"; environment := ∅; spawner_log := [] |}).1
    !! "JUPYTER_ADMIN" ≠ Some "1".
Proof.
  intros Hflag.
  apply (proj1 (admin_flag_iff_listed
                  (host_with [ ("JUPYTERHUB_ADMIN_USERS", "alice, bob") ]) empty_state
                  {| user_name := "bob"; environment := ∅; spawner_log := [] |}
                  (lookup_empty _))) in Hflag.
  vm_compute in Hflag.
  repeat (apply elem_of_cons in Hflag as [Hflag | Hflag]; [discriminate |]).
  by apply elem_of_nil in Hflag.
Defined.

(** X5: the hooks over a spawn, stop and spawn again: the first spawn
    changes the spawner's environment at JUPYTER_ADMIN only, the stop hook
    does not change it, the second spawn leaves it as the first did; the user
    name is untouched, both later hooks end normally, and five lines in all
    are logged. *)
Theorem spawn_stop_spawn_cycle
    (h : Host) (c : gmap string pyval) (admins : gset string) (sp : Spawner) :
  c !! "Authenticator.admin_users" = Some (VSet admins) →
  let started := (pre_spawn_hook h c sp).1 in
  let stopped := (post_stop_hook h started).1 in
  let restarted := (pre_spawn_hook h c stopped).1 in
  (∀ name, name ≠ "JUPYTER_ADMIN" →
           environment started !! name = environment sp !! name) ∧
  environment stopped = environment started ∧
  environment restarted = environment started ∧
  user_name restarted = user_name sp ∧
  (post_stop_hook h started).2 = Ok tt ∧
  (pre_spawn_hook h c stopped).2 = Ok tt ∧
  length (spawner_log restarted) = (length (spawner_log sp) + 5)%nat.
Proof.
  intros Hadmins. unfold pre_spawn_hook, post_stop_hook. rewrite Hadmins. cbn.
  destruct (bool_decide (user_name sp ∈ admins)) eqn:Hadmin; cbn; rewrite ?Hadmin; cbn;
    (split_and!; try done;
     first [ intros name Hname; by rewrite lookup_insert_ne
           | by rewrite insert_insert_eq
           | rewrite ?length_app; cbn; lia ]).
Qed.

Lemma spawn_stop_spawn_cycle_witness :
  environment
    (pre_spawn_hook (host_with [])
       (cfg (jupyterhub_config (host_with []) empty_state).1)
       (post_stop_hook (host_with [])
          (pre_spawn_hook (host_with [])
             (cfg (jupyterhub_config (host_with []) empty_state).1)
             {| user_name := "admin"; environment := {[ "NB_UID" := "1000" ]};
                spawner_log := [] |}).1).1).1
  = environment
      (pre_spawn_hook (host_with [])
         (cfg (jupyterhub_config (host_with []) empty_state).1)
         {| user_name := "admin"; environment := {[ "NB_UID" := "1000" ]};
            spawner_log := [] |}).1.
Proof.
  pose proof (spawn_stop_spawn_cycle (host_with [])
                (cfg (jupyterhub_config (host_with []) empty_state).1) {[ "admin" ]}
                {| user_name := "admin"; environment := {[ "NB_UID" := "1000" ]};
                   spawner_log := [] |} eq_refl) as (_ & _ & Hcycle & _).
  exact Hcycle.
Defined.

End HubBehaviour.

(** * The lab configuration, further *)

Module LabBehaviour.
Import Fs Lab Text Builtins FsFacts LabFacts.
Local Open Scope py_scope.

Lemma py_int_environ_bad h name fallback e :
  py_int (environ_get_val h name (VInt fallback)) = Raise e →
  ∃ bad, environ h !! name = Some bad ∧ int_of_str bad = None ∧
         e = ValueError "int" bad.
Proof.
  unfold environ_get_val. destruct (environ h !! name) as [v|]; [|done]. cbn.
  destruct (int_of_str v) eqn:Hv; [done |]. intros [= <-]. eauto.
Qed.

Lemma files_root_dir h s s' :
  files_and_security h s = (s', Ok tt) →
  cfg s' !! "ServerApp.root_dir"
    = Some (VStr (environ_get_or h "JUPYTER_ROOT_DIR" "/home/jovyan")).
Proof. intros [= <-]. cbn. by lookups. Qed.

(** The text [os.path.join] gives for a text root and a relative path. *)
Lemma os_path_join_text root rel :
  ∃ joined, os_path_join (VStr root) rel = Ok (VStr joined).
Proof. by eexists. Qed.

Ltac readback H := repeat (progress (lookups; rewrite ?H; cbn)).

Lemma kernels_outcome h s root :
  cfg s !! "ServerApp.root_dir" = Some (VStr root) →
  match py_int (environ_get_val h "JUPYTER_KERNEL_TIMEOUT" (VInt 3600)) with
  | Ok n =>
      ∃ s', kernels_and_lab h s = (s', Ok tt) ∧
            cfg s' !! "MappingKernelManager.cull_idle_timeout" = Some (VInt n) ∧
            Ok <$> cfg s' !! "LabApp.user_settings_dir"
              = Some (os_path_join (VStr root) ".jupyter/lab/user-settings") ∧
            Ok <$> cfg s' !! "LabApp.workspaces_dir"
              = Some (os_path_join (VStr root) ".jupyter/lab/workspaces")
  | Raise e => kernels_and_lab h s = (s, Raise e)
  end.
Proof.
  intros Hroot. unfold kernels_and_lab, bind, lift, attr, assign.
  destruct (py_int _) as [n|e]; [|done]. cbn. readback Hroot.
  eexists. split; [reflexivity |]. cbn. split_and!; by lookups.
Qed.

Lemma performance_outcome h s :
  match py_int (environ_get_val h "MEM_LIMIT" (VInt 2147483648)),
        py_int (environ_get_val h "JUPYTER_SHUTDOWN_TIMEOUT" (VInt 0)) with
  | Ok m, Ok n =>
      ∃ s', performance_and_ui h s = (s', Ok tt) ∧
            cfg s' !! "ResourceUseDisplay.mem_limit" = Some (VInt m) ∧
            cfg s' !! "ServerApp.shutdown_no_activity_timeout" = Some (VInt n) ∧
            cfg s' !! "GitConfig.git_dir"
              = Some (default (VObj "LazyConfigValue") (cfg s !! "ServerApp.root_dir")) ∧
            cfg s' !! "Application.log_level"
              = Some (VStr (environ_get_or h "JUPYTER_LOG_LEVEL" "INFO"))
  | Raise e, _ => performance_and_ui h s = (s, Raise e)
  | Ok _, Raise e => ∃ s', performance_and_ui h s = (s', Raise e)
  end.
Proof.
  unfold performance_and_ui, bind, lift, attr, assign.
  destruct (py_int (environ_get_val h "MEM_LIMIT" _)) as [m|e]; [|done].
  destruct (py_int (environ_get_val h "JUPYTER_SHUTDOWN_TIMEOUT" _)) as [n|e];
    [| by eexists].
  eexists. split; [reflexivity |]. cbn. lookups. split_and!; by lookups.
Qed.

Lemma switches_outcome h s root :
  cfg s !! "ServerApp.root_dir" = Some (VStr root) →
  ∃ s', switches_and_notebooks h s = (s', Ok tt) ∧
        Ok <$> cfg s' !! "NotebookNotary.db_file"
          = Some (os_path_join (VStr root) ".jupyter/nbsignatures.db") ∧
        if String.eqb (Text.lower (environ_get_or h "JUPYTER_DEBUG" "false")) "true"
        then cfg s' !! "Application.log_level" = Some (VStr "DEBUG") ∧
             cfg s' !! "ServerApp.allow_remote_access" = Some (VBool true)
        else cfg s' !! "Application.log_level" = cfg s !! "Application.log_level" ∧
             cfg s' !! "ServerApp.allow_remote_access"
               = cfg s !! "ServerApp.allow_remote_access".
Proof.
  intros Hroot. unfold switches_and_notebooks, bind, lift, attr, assign, when.
  destruct (String.eqb (Text.lower (environ_get_or h "JUPYTER_ENABLE_COLLABORATION" _)) _);
    destruct (String.eqb (Text.lower (environ_get_or h "JUPYTER_DEBUG" _)) _);
    cbn; readback Hroot;
    (eexists; split; [reflexivity |]); cbn; split_and!; by lookups.
Qed.

Lemma server_outcome h s :
  match py_int (environ_get_val h "JUPYTER_PORT" (VInt 8888)) with
  | Ok n => ∃ s', server h s = (s', Ok tt) ∧ cfg s' !! "ServerApp.port" = Some (VInt n)
  | Raise e => ∃ s', server h s = (s', Raise e)
  end.
Proof.
  destruct (py_int _) as [n|e] eqn:Hport; [by apply server_port |].
  unfold server, bind, lift. rewrite Hport. by eexists.
Qed.

Lemma startup_total h s : ∃ s', startup h s = (s', Ok tt).
Proof.
  unfold startup, try_except.
  destruct (setup_user_environment h s) as [s1 [[]|e]]; by eexists.
Qed.

(** How the script ends: with the first of its four integers that does not
    parse, in the order of the file, and normally when all four do. *)
Lemma lab_result h s0 :
  ∃ s, jupyter_lab_config h s0 =
       (s, match py_int (environ_get_val h "JUPYTER_PORT" (VInt 8888)) with
           | Raise e => Raise e
           | Ok _ =>
           match py_int (environ_get_val h "JUPYTER_KERNEL_TIMEOUT" (VInt 3600)) with
           | Raise e => Raise e
           | Ok _ =>
           match py_int (environ_get_val h "MEM_LIMIT" (VInt 2147483648)) with
           | Raise e => Raise e
           | Ok _ =>
           match py_int (environ_get_val h "JUPYTER_SHUTDOWN_TIMEOUT" (VInt 0)) with
           | Raise e => Raise e
           | Ok _ => Ok tt
           end end end end).
Proof.
  unfold jupyter_lab_config, settings.
  pose proof (server_outcome h s0) as Hserver.
  destruct (py_int (environ_get_val h "JUPYTER_PORT" _)) as [p|e].
  2:{ destruct Hserver as (s1 & H1). exists s1.
      by rewrite (bind_raise _ _ _ _ _ (bind_raise _ _ _ _ _ H1)). }
  destruct Hserver as (s1 & H1 & _).
  destruct (files_and_security_total h s1) as (s2 & H2).
  pose proof (files_root_dir _ _ _ H2) as Hroot2.
  pose proof (kernels_outcome h s2 _ Hroot2) as Hkernels.
  destruct (py_int (environ_get_val h "JUPYTER_KERNEL_TIMEOUT" _)) as [t|e].
  2:{ exists s2. erewrite bind_raise; [done |].
      rewrite (bind_ok _ _ _ _ _ H1), (bind_ok _ _ _ _ _ H2).
      by apply bind_raise. }
  destruct Hkernels as (s3 & H3 & _).
  assert (cfg s3 !! "ServerApp.root_dir"
          = Some (VStr (environ_get_or h "JUPYTER_ROOT_DIR" "/home/jovyan"))) as Hroot3
    by (rewrite (keeps_run _ _ _ _ _ H3) by (LabFacts.blocks; frame); done).
  pose proof (performance_outcome h s3) as Hperf.
  destruct (py_int (environ_get_val h "MEM_LIMIT" _)) as [m|e].
  2:{ exists s3. erewrite bind_raise; [done |].
      rewrite (bind_ok _ _ _ _ _ H1), (bind_ok _ _ _ _ _ H2), (bind_ok _ _ _ _ _ H3).
      by apply bind_raise. }
  destruct (py_int (environ_get_val h "JUPYTER_SHUTDOWN_TIMEOUT" _)) as [n|e].
  2:{ destruct Hperf as (s4 & H4). exists s4. erewrite bind_raise; [done |].
      rewrite (bind_ok _ _ _ _ _ H1), (bind_ok _ _ _ _ _ H2), (bind_ok _ _ _ _ _ H3).
      by apply bind_raise. }
  destruct Hperf as (s4 & H4 & _).
  assert (cfg s4 !! "ServerApp.root_dir"
          = Some (VStr (environ_get_or h "JUPYTER_ROOT_DIR" "/home/jovyan"))) as Hroot4
    by (rewrite (keeps_run _ _ _ _ _ H4) by (LabFacts.blocks; frame); done).
  destruct (switches_outcome h s4 _ Hroot4) as (s5 & H5 & _).
  destruct (startup_total h s5) as (s6 & H6).
  destruct (banner_run h s6) as (lines & _ & H7).
  eexists. erewrite bind_ok.
  2:{ rewrite (bind_ok _ _ _ _ _ H1), (bind_ok _ _ _ _ _ H2), (bind_ok _ _ _ _ _ H3),
        (bind_ok _ _ _ _ _ H4). exact H5. }
  by rewrite (bind_ok _ _ _ _ _ H6), H7.
Qed.

(** X6: whatever the filesystem and the home directory, the lab script ends
    normally exactly when its four integer settings -- JUPYTER_PORT,
    JUPYTER_KERNEL_TIMEOUT, MEM_LIMIT and JUPYTER_SHUTDOWN_TIMEOUT -- are
    unset or parse as integers. *)
Theorem lab_completes_iff_integers_parse (h : Host) (s0 : State) :
  (∃ s, jupyter_lab_config h s0 = (s, Ok tt)) ↔
  (∃ port timeout mem shutdown,
     py_int (environ_get_val h "JUPYTER_PORT" (VInt 8888)) = Ok port ∧
     py_int (environ_get_val h "JUPYTER_KERNEL_TIMEOUT" (VInt 3600)) = Ok timeout ∧
     py_int (environ_get_val h "MEM_LIMIT" (VInt 2147483648)) = Ok mem ∧
     py_int (environ_get_val h "JUPYTER_SHUTDOWN_TIMEOUT" (VInt 0)) = Ok shutdown).
Proof.
  destruct (lab_result h s0) as (s' & Hrun). rewrite Hrun. split.
  - intros (s & Hs).
    destruct (py_int (environ_get_val h "JUPYTER_PORT" _)) as [p|]; [|congruence].
    destruct (py_int (environ_get_val h "JUPYTER_KERNEL_TIMEOUT" _)) as [t|]; [|congruence].
    destruct (py_int (environ_get_val h "MEM_LIMIT" _)) as [m|]; [|congruence].
    destruct (py_int (environ_get_val h "JUPYTER_SHUTDOWN_TIMEOUT" _)) as [n|];
      [|congruence].
    by exists p, t, m, n.
  - intros (p & t & m & n & -> & -> & -> & ->). by exists s'.
Qed.

Lemma lab_completes_iff_integers_parse_witness :
  ∃ s, jupyter_lab_config (host_denying [ "notebooks"; "jovyan"; "home" ]) empty_state
       = (s, Ok tt).
Proof.
  apply (lab_completes_iff_integers_parse
           (host_denying [ "notebooks"; "jovyan"; "home" ]) empty_state).
  by exists 8888, 3600, 2147483648, 0.
Defined.

(** X7: the only exception the lab script ends with is the ValueError of
    [int] on the value of one of its four integer variables, a value that is
    set and does not parse. *)
Theorem lab_raises_only_value_error (h : Host) (s0 s : State) (e : exn) :
  jupyter_lab_config h s0 = (s, Raise e) →
  ∃ name bad,
    name ∈ [ "JUPYTER_PORT"; "JUPYTER_KERNEL_TIMEOUT"; "MEM_LIMIT";
             "JUPYTER_SHUTDOWN_TIMEOUT" ] ∧
    environ h !! name = Some bad ∧ int_of_str bad = None ∧
    e = ValueError "int" bad.
Proof.
  destruct (lab_result h s0) as (s' & Hrun). rewrite Hrun.
  destruct (py_int (environ_get_val h "JUPYTER_PORT" _)) as [p|e1] eqn:H1.
  2:{ intros [= <- <-]. destruct (py_int_environ_bad _ _ _ _ H1) as (bad & ? & ? & ?).
      exists "JUPYTER_PORT", bad. split_and!; try done. set_solver. }
  destruct (py_int (environ_get_val h "JUPYTER_KERNEL_TIMEOUT" _)) as [t|e1] eqn:H2.
  2:{ intros [= <- <-]. destruct (py_int_environ_bad _ _ _ _ H2) as (bad & ? & ? & ?).
      exists "JUPYTER_KERNEL_TIMEOUT", bad. split_and!; try done. set_solver. }
  destruct (py_int (environ_get_val h "MEM_LIMIT" _)) as [m|e1] eqn:H3.
  2:{ intros [= <- <-]. destruct (py_int_environ_bad _ _ _ _ H3) as (bad & ? & ? & ?).
      exists "MEM_LIMIT", bad. split_and!; try done. set_solver. }
  destruct (py_int (environ_get_val h "JUPYTER_SHUTDOWN_TIMEOUT" _)) as [n|e1] eqn:H4.
  2:{ intros [= <- <-]. destruct (py_int_environ_bad _ _ _ _ H4) as (bad & ? & ? & ?).
      exists "JUPYTER_SHUTDOWN_TIMEOUT", bad. split_and!; try done. set_solver. }
  discriminate.
Qed.

Lemma lab_raises_only_value_error_witness :
  ∃ name bad,
    name ∈ [ "JUPYTER_PORT"; "JUPYTER_KERNEL_TIMEOUT"; "MEM_LIMIT";
             "JUPYTER_SHUTDOWN_TIMEOUT" ] ∧
    environ (host_with [ ("MEM_LIMIT", "2G") ]) !! name = Some bad ∧
    int_of_str bad = None ∧
    ValueError "int" "2G" = ValueError "int" bad.
Proof.
  apply (lab_raises_only_value_error (host_with [ ("MEM_LIMIT", "2G") ]) empty_state
           (jupyter_lab_config (host_with [ ("MEM_LIMIT", "2G") ]) empty_state).1).
  apply run_eta. reflexivity.
Defined.

Lemma last_char_slash root :
  root ≠ EmptyString →
  (String.eqb (String.substring (String.length root - 1) 1 root) "/" = true
   ↔ ∃ front, root = front +:+ "/").
Proof.
  induction root as [|c r IH]; [done |]. intros _.
  destruct r as [|d r'].
  - cbn. destruct (Ascii.eqb_spec c "/") as [-> | Hc]; split; try done.
    + intros _. by exists EmptyString.
    + intros ([|c' front] & Hfront); cbn in Hfront.
      * by injection Hfront as ->.
      * injection Hfront as _ Hfront. by destruct front.
  - replace (String.length (String c (String d r')) - 1)%nat
      with (S (String.length (String d r') - 1)) by (cbn; lia).
    cbn [String.substring]. rewrite IH by done. split.
    + intros (front & ->). by exists (String c front).
    + intros ([|c' front] & Hfront); cbn in Hfront; [discriminate |].
      injection Hfront as _ ->. by exists front.
Qed.

(** Joining a relative path to a text root: one separator, the same for every
    relative path -- none when the root is empty or ends with a slash, a
    slash otherwise. *)
Lemma os_path_join_form root :
  ∃ sep,
    ((root = EmptyString ∨ ∃ front, root = front +:+ "/") ∧ sep = EmptyString
     ∨ (root ≠ EmptyString ∧ (∀ front, root ≠ front +:+ "/") ∧ sep = "/")) ∧
    ∀ rel, String.prefix "/" rel = false →
           os_path_join (VStr root) rel = Ok (VStr (root +:+ sep +:+ rel)).
Proof.
  destruct root as [|c r].
  { exists EmptyString. split; [left; eauto |]. intros rel Hrel. cbn. by rewrite Hrel. }
  pose proof (last_char_slash (String c r) ltac:(done)) as Hlast.
  unfold os_path_join.
  destruct (String.eqb (String.substring (String.length (String c r) - 1) 1 (String c r)) "/")
    eqn:Hslash.
  - exists EmptyString. split; [left; split; [right; by apply Hlast | done] |].
    by intros rel ->.
  - exists "/". split.
    + right. split_and!; try done. intros front Hfront.
      assert (false = true) by (apply Hlast; eauto). done.
    + by intros rel ->.
Qed.

(** With its four integers parsed, the script runs block by block, and the
    configuration it ends with is the one its settings part has built. *)
Lemma lab_settings_run h s0 port timeout mem shutdown :
  py_int (environ_get_val h "JUPYTER_PORT" (VInt 8888)) = Ok port →
  py_int (environ_get_val h "JUPYTER_KERNEL_TIMEOUT" (VInt 3600)) = Ok timeout →
  py_int (environ_get_val h "MEM_LIMIT" (VInt 2147483648)) = Ok mem →
  py_int (environ_get_val h "JUPYTER_SHUTDOWN_TIMEOUT" (VInt 0)) = Ok shutdown →
  ∃ s1 s2 s3 s4 s5,
    server h s0 = (s1, Ok tt) ∧ files_and_security h s1 = (s2, Ok tt) ∧
    kernels_and_lab h s2 = (s3, Ok tt) ∧ performance_and_ui h s3 = (s4, Ok tt) ∧
    switches_and_notebooks h s4 = (s5, Ok tt) ∧
    settings h s0 = (s5, Ok tt) ∧
    cfg (jupyter_lab_config h s0).1 = cfg s5.
Proof.
  intros Hport Htimeout Hmem Hshutdown.
  pose proof (server_outcome h s0) as Hserver. rewrite Hport in Hserver.
  destruct Hserver as (s1 & H1 & _).
  destruct (files_and_security_total h s1) as (s2 & H2).
  pose proof (files_root_dir _ _ _ H2) as Hroot2.
  pose proof (kernels_outcome h s2 _ Hroot2) as Hkernels. rewrite Htimeout in Hkernels.
  destruct Hkernels as (s3 & H3 & _).
  assert (cfg s3 !! "ServerApp.root_dir"
          = Some (VStr (environ_get_or h "JUPYTER_ROOT_DIR" "/home/jovyan"))) as Hroot3
    by (rewrite (keeps_run _ _ _ _ _ H3) by (LabFacts.blocks; frame); done).
  pose proof (performance_outcome h s3) as Hperf. rewrite Hmem, Hshutdown in Hperf.
  destruct Hperf as (s4 & H4 & _).
  assert (cfg s4 !! "ServerApp.root_dir"
          = Some (VStr (environ_get_or h "JUPYTER_ROOT_DIR" "/home/jovyan"))) as Hroot4
    by (rewrite (keeps_run _ _ _ _ _ H4) by (LabFacts.blocks; frame); done).
  destruct (switches_outcome h s4 _ Hroot4) as (s5 & H5 & _).
  assert (settings h s0 = (s5, Ok tt)) as Hsettings.
  { unfold settings.
    by rewrite (bind_ok _ _ _ _ _ H1), (bind_ok _ _ _ _ _ H2), (bind_ok _ _ _ _ _ H3),
      (bind_ok _ _ _ _ _ H4). }
  exists s1, s2, s3, s4, s5. split_and!; try done.
  unfold jupyter_lab_config. rewrite (bind_ok _ _ _ _ _ Hsettings).
  destruct (startup_total h s5) as (s6 & H6). rewrite (bind_ok _ _ _ _ _ H6).
  destruct (banner_run h s6) as (lines & _ & ->). cbn.
  unfold startup, try_except in H6.
  pose proof (setup_fs_only h s5) as (Hcfg & _).
  destruct (setup_user_environment h s5) as [s' [[]|e]]; cbn in Hcfg;
    injection H6 as <-; done.
Qed.

(** X8: once the four integers parse, JUPYTER_DEBUG spelling 'true' in any
    capitalisation makes the log level 'DEBUG', whatever JUPYTER_LOG_LEVEL
    says, and allows remote access; otherwise the log level is
    JUPYTER_LOG_LEVEL (default 'INFO') and the remote-access setting is left
    as it was. *)
Theorem lab_debug_overrides_log_level
    (h : Host) (s0 : State) (port timeout mem shutdown : Z) :
  py_int (environ_get_val h "JUPYTER_PORT" (VInt 8888)) = Ok port →
  py_int (environ_get_val h "JUPYTER_KERNEL_TIMEOUT" (VInt 3600)) = Ok timeout →
  py_int (environ_get_val h "MEM_LIMIT" (VInt 2147483648)) = Ok mem →
  py_int (environ_get_val h "JUPYTER_SHUTDOWN_TIMEOUT" (VInt 0)) = Ok shutdown →
  (Text.lower (environ_get_or h "JUPYTER_DEBUG" "false") = "true" →
     cfg (jupyter_lab_config h s0).1 !! "Application.log_level" = Some (VStr "DEBUG") ∧
     cfg (jupyter_lab_config h s0).1 !! "ServerApp.allow_remote_access"
       = Some (VBool true)) ∧
  (Text.lower (environ_get_or h "JUPYTER_DEBUG" "false") ≠ "true" →
     cfg (jupyter_lab_config h s0).1 !! "Application.log_level"
       = Some (VStr (environ_get_or h "JUPYTER_LOG_LEVEL" "INFO")) ∧
     cfg (jupyter_lab_config h s0).1 !! "ServerApp.allow_remote_access"
       = cfg s0 !! "ServerApp.allow_remote_access").
Proof.
  intros Hport Htimeout Hmem Hshutdown.
  destruct (lab_settings_run h s0 _ _ _ _ Hport Htimeout Hmem Hshutdown)
    as (s1 & s2 & s3 & s4 & s5 & H1 & H2 & H3 & H4 & H5 & _ & ->).
  assert (cfg s4 !! "ServerApp.root_dir"
          = Some (VStr (environ_get_or h "JUPYTER_ROOT_DIR" "/home/jovyan"))) as Hroot4.
  { rewrite (keeps_run _ _ _ _ _ H4) by (LabFacts.blocks; frame).
    rewrite (keeps_run _ _ _ _ _ H3) by (LabFacts.blocks; frame).
    exact (files_root_dir _ _ _ H2). }
  destruct (switches_outcome h s4 _ Hroot4) as (s5' & H5' & _ & Hdebug).
  rewrite H5 in H5'. injection H5' as <-.
  pose proof (performance_outcome h s3) as Hperf. rewrite Hmem, Hshutdown in Hperf.
  destruct Hperf as (s4' & H4' & _ & _ & _ & Hlevel).
  rewrite H4 in H4'. injection H4' as <-.
  split; intros Hword.
  - apply String.eqb_eq in Hword. by rewrite Hword in Hdebug.
  - apply String.eqb_neq in Hword. rewrite Hword in Hdebug.
    destruct Hdebug as [-> ->]. split; [done |].
    rewrite (keeps_run _ _ _ _ _ H4) by (LabFacts.blocks; frame).
    rewrite (keeps_run _ _ _ _ _ H3) by (LabFacts.blocks; frame).
    rewrite (keeps_run _ _ _ _ _ H2) by (LabFacts.blocks; frame).
    by rewrite (keeps_run _ _ _ _ _ H1) by (LabFacts.blocks; frame).
Qed.

Lemma lab_debug_overrides_log_level_witness :
  cfg (jupyter_lab_config
         (host_with [ ("JUPYTER_LOG_LEVEL", "WARN"); ("JUPYTER_DEBUG", "True") ])
         empty_state).1 !! "Application.log_level" = Some (VStr "DEBUG") ∧
  cfg (jupyter_lab_config
         (host_with [ ("JUPYTER_LOG_LEVEL", "WARN"); ("JUPYTER_DEBUG", "1") ])
         empty_state).1 !! "Application.log_level" = Some (VStr "WARN").
Proof.
  split.
  - apply (lab_debug_overrides_log_level
             (host_with [ ("JUPYTER_LOG_LEVEL", "WARN"); ("JUPYTER_DEBUG", "True") ])
             empty_state 8888 3600 2147483648 0); reflexivity.
  - apply (proj2 (lab_debug_overrides_log_level
             (host_with [ ("JUPYTER_LOG_LEVEL", "WARN"); ("JUPYTER_DEBUG", "1") ])
             empty_state 8888 3600 2147483648 0 eq_refl eq_refl eq_refl eq_refl)).
    discriminate.
Defined.

(** X9: once the four integers parse, the directory settings follow the
    root directory (JUPYTER_ROOT_DIR, default '/home/jovyan'): the Git
    directory is the root itself, and the user-settings directory, the
    workspaces directory and the signature database are the root, one
    separator, and their relative path -- the separator being empty when the
    root is empty or ends with a slash, and a slash otherwise. *)
Theorem lab_paths_follow_root_dir
    (h : Host) (s0 : State) (port timeout mem shutdown : Z) :
  py_int (environ_get_val h "JUPYTER_PORT" (VInt 8888)) = Ok port →
  py_int (environ_get_val h "JUPYTER_KERNEL_TIMEOUT" (VInt 3600)) = Ok timeout →
  py_int (environ_get_val h "MEM_LIMIT" (VInt 2147483648)) = Ok mem →
  py_int (environ_get_val h "JUPYTER_SHUTDOWN_TIMEOUT" (VInt 0)) = Ok shutdown →
  ∃ root sep,
    root = environ_get_or h "JUPYTER_ROOT_DIR" "/home/jovyan" ∧
    ((root = EmptyString ∨ ∃ front, root = front +:+ "/") ∧ sep = EmptyString
     ∨ (root ≠ EmptyString ∧ (∀ front, root ≠ front +:+ "/") ∧ sep = "/")) ∧
    cfg (jupyter_lab_config h s0).1 !! "ServerApp.root_dir" = Some (VStr root) ∧
    cfg (jupyter_lab_config h s0).1 !! "GitConfig.git_dir" = Some (VStr root) ∧
    cfg (jupyter_lab_config h s0).1 !! "LabApp.user_settings_dir"
      = Some (VStr (root +:+ sep +:+ ".jupyter/lab/user-settings")) ∧
    cfg (jupyter_lab_config h s0).1 !! "LabApp.workspaces_dir"
      = Some (VStr (root +:+ sep +:+ ".jupyter/lab/workspaces")) ∧
    cfg (jupyter_lab_config h s0).1 !! "NotebookNotary.db_file"
      = Some (VStr (root +:+ sep +:+ ".jupyter/nbsignatures.db")).
Proof.
  intros Hport Htimeout Hmem Hshutdown.
  destruct (lab_settings_run h s0 _ _ _ _ Hport Htimeout Hmem Hshutdown)
    as (s1 & s2 & s3 & s4 & s5 & H1 & H2 & H3 & H4 & H5 & _ & ->).
  set (root := environ_get_or h "JUPYTER_ROOT_DIR" "/home/jovyan").
  pose proof (files_root_dir _ _ _ H2) as Hroot2. fold root in Hroot2.
  pose proof (kernels_outcome h s2 _ Hroot2) as Hkernels. rewrite Htimeout in Hkernels.
  destruct Hkernels as (s3' & H3' & _ & Hsettings & Hworkspaces).
  rewrite H3 in H3'. injection H3' as <-.
  assert (cfg s3 !! "ServerApp.root_dir" = Some (VStr root)) as Hroot3
    by (rewrite (keeps_run _ _ _ _ _ H3) by (LabFacts.blocks; frame); done).
  pose proof (performance_outcome h s3) as Hperf. rewrite Hmem, Hshutdown in Hperf.
  destruct Hperf as (s4' & H4' & _ & _ & Hgit & _).
  rewrite H4 in H4'. injection H4' as <-. rewrite Hroot3 in Hgit. cbn in Hgit.
  assert (cfg s4 !! "ServerApp.root_dir" = Some (VStr root)) as Hroot4
    by (rewrite (keeps_run _ _ _ _ _ H4) by (LabFacts.blocks; frame); done).
  destruct (switches_outcome h s4 _ Hroot4) as (s5' & H5' & Hdb & _).
  rewrite H5 in H5'. injection H5' as <-.
  destruct (os_path_join_form root) as (sep & Hsep & Hjoin).
  rewrite Hjoin in Hsettings, Hworkspaces, Hdb by done.
  exists root, sep. split; [done |]. split; [exact Hsep |]. split_and!.
  - by rewrite (keeps_run _ _ _ _ _ H5) by (LabFacts.blocks; frame).
  - rewrite (keeps_run _ _ _ _ _ H5) by (LabFacts.blocks; frame). exact Hgit.
  - rewrite (keeps_run _ _ _ _ _ H5) by (LabFacts.blocks; frame).
    rewrite (keeps_run _ _ _ _ _ H4) by (LabFacts.blocks; frame).
    destruct (cfg s3 !! "LabApp.user_settings_dir"); by simplify_eq/=.
  - rewrite (keeps_run _ _ _ _ _ H5) by (LabFacts.blocks; frame).
    rewrite (keeps_run _ _ _ _ _ H4) by (LabFacts.blocks; frame).
    destruct (cfg s3 !! "LabApp.workspaces_dir"); by simplify_eq/=.
  - destruct (cfg s5 !! "NotebookNotary.db_file"); by simplify_eq/=.
Qed.

Lemma lab_paths_follow_root_dir_witness :
  cfg (jupyter_lab_config (host_with [ ("JUPYTER_ROOT_DIR", "/srv/work/") ])
         empty_state).1 !! "NotebookNotary.db_file"
    = Some (VStr "/srv/work/.jupyter/nbsignatures.db").
Proof.
  destruct (lab_paths_follow_root_dir
              (host_with [ ("JUPYTER_ROOT_DIR", "/srv/work/") ]) empty_state
              8888 3600 2147483648 0 eq_refl eq_refl eq_refl eq_refl)
    as (root & sep & -> & [[_ ->] | (_ & Hnone & _)] & _ & _ & _ & _ & Hdb).
  - exact Hdb.
  - destruct (Hnone "/srv/work" eq_refl).
Defined.

Lemma server_values h s s' :
  server h s = (s', Ok tt) →
  cfg s' !! "ServerApp.ip" = Some (VStr "0.0.0.0") ∧
  cfg s' !! "ServerApp.open_browser" = Some (VBool false) ∧
  cfg s' !! "ServerApp.token" = Some (VStr (environ_get_or h "JUPYTER_TOKEN" "")) ∧
  cfg s' !! "ServerApp.password" = Some (VStr (environ_get_or h "JUPYTER_PASSWORD" "")).
Proof.
  unfold server, bind, lift, assign, when.
  destruct (py_int _) as [n|e]; [|done].
  destruct (truthy _); intros [= <-]; cbn; split_and!; by lookups.
Qed.

Lemma files_allow_origin h s s' :
  files_and_security h s = (s', Ok tt) →
  cfg s' !! "ServerApp.allow_origin" = Some (VStr "*").
Proof. intros [= <-]. cbn. by lookups. Qed.

(** X14: with JUPYTER_PORT, JUPYTER_TOKEN, JUPYTER_PASSWORD,
    JUPYTER_LOG_LEVEL and JUPYTER_DEBUG unset, the lab script gives the
    address, port, browser switch, token, password, allowed origin and log
    level the values the base server script gives them; the two scripts
    differ on the tornado settings. *)
Theorem lab_defaults_agree_with_server_config
    (h : Host) (s0 s : State) (timeout mem shutdown : Z) :
  (∀ name, name ∈ [ "JUPYTER_PORT"; "JUPYTER_TOKEN"; "JUPYTER_PASSWORD";
                    "JUPYTER_LOG_LEVEL"; "JUPYTER_DEBUG" ] →
           environ h !! name = None) →
  py_int (environ_get_val h "JUPYTER_KERNEL_TIMEOUT" (VInt 3600)) = Ok timeout →
  py_int (environ_get_val h "MEM_LIMIT" (VInt 2147483648)) = Ok mem →
  py_int (environ_get_val h "JUPYTER_SHUTDOWN_TIMEOUT" (VInt 0)) = Ok shutdown →
  (∀ key, key ∈ [ "ServerApp.ip"; "ServerApp.port"; "ServerApp.open_browser";
                  "ServerApp.token"; "ServerApp.password"; "ServerApp.allow_origin";
                  "Application.log_level" ] →
          cfg (jupyter_lab_config h s0).1 !! key
            = cfg (Server.jupyter_server_config s).1 !! key) ∧
  cfg (jupyter_lab_config h s0).1 !! "ServerApp.tornado_settings"
    ≠ cfg (Server.jupyter_server_config s).1 !! "ServerApp.tornado_settings".
Proof.
  intros Hunset Htimeout Hmem Hshutdown.
  assert (∀ name fallback,
            name ∈ [ "JUPYTER_PORT"; "JUPYTER_TOKEN"; "JUPYTER_PASSWORD";
                     "JUPYTER_LOG_LEVEL"; "JUPYTER_DEBUG" ] →
            environ_get_or h name fallback = fallback) as Hdefault
    by (intros name fallback Hname; unfold environ_get_or; by rewrite (Hunset _ Hname)).
  assert (py_int (environ_get_val h "JUPYTER_PORT" (VInt 8888)) = Ok 8888) as Hport
    by (unfold environ_get_val; rewrite Hunset by set_solver; done).
  destruct (lab_settings_run h s0 _ _ _ _ Hport Htimeout Hmem Hshutdown)
    as (s1 & s2 & s3 & s4 & s5 & H1 & H2 & H3 & H4 & H5 & _ & ->).
  pose proof (server_outcome h s0) as Hserver. rewrite Hport in Hserver.
  destruct Hserver as (s1' & H1' & Hp). rewrite H1 in H1'. injection H1' as <-.
  destruct (server_values _ _ _ H1) as (Hip & Hbrowser & Htoken & Hpassword).
  rewrite Hdefault in Htoken, Hpassword by set_solver.
  pose proof (files_allow_origin _ _ _ H2) as Horigin.
  pose proof (performance_outcome h s3) as Hperf. rewrite Hmem, Hshutdown in Hperf.
  destruct Hperf as (s4' & H4' & _ & _ & _ & Hlevel).
  rewrite H4 in H4'. injection H4' as <-. rewrite Hdefault in Hlevel by set_solver.
  assert (cfg s4 !! "ServerApp.root_dir"
          = Some (VStr (environ_get_or h "JUPYTER_ROOT_DIR" "/home/jovyan"))) as Hroot4.
  { rewrite (keeps_run _ _ _ _ _ H4) by (LabFacts.blocks; frame).
    rewrite (keeps_run _ _ _ _ _ H3) by (LabFacts.blocks; frame).
    exact (files_root_dir _ _ _ H2). }
  destruct (switches_outcome h s4 _ Hroot4) as (s5' & H5' & _ & Hdebug).
  rewrite H5 in H5'. injection H5' as <-.
  rewrite (Hdefault "JUPYTER_DEBUG") in Hdebug by set_solver. cbn in Hdebug.
  destruct Hdebug as [Hlevel5 _].
  split.
  - intros key Hkey.
    repeat (apply elem_of_cons in Hkey as [-> | Hkey]);
      [ | | | | | | | by apply elem_of_nil in Hkey ];
      cbn; lookups.
    + rewrite (keeps_run _ _ _ _ _ H5), (keeps_run _ _ _ _ _ H4),
        (keeps_run _ _ _ _ _ H3), (keeps_run _ _ _ _ _ H2)
        by (LabFacts.blocks; frame). exact Hip.
    + rewrite (keeps_run _ _ _ _ _ H5), (keeps_run _ _ _ _ _ H4),
        (keeps_run _ _ _ _ _ H3), (keeps_run _ _ _ _ _ H2)
        by (LabFacts.blocks; frame). exact Hp.
    + rewrite (keeps_run _ _ _ _ _ H5), (keeps_run _ _ _ _ _ H4),
        (keeps_run _ _ _ _ _ H3), (keeps_run _ _ _ _ _ H2)
        by (LabFacts.blocks; frame). exact Hbrowser.
    + rewrite (keeps_run _ _ _ _ _ H5), (keeps_run _ _ _ _ _ H4),
        (keeps_run _ _ _ _ _ H3), (keeps_run _ _ _ _ _ H2)
        by (LabFacts.blocks; frame). exact Htoken.
    + rewrite (keeps_run _ _ _ _ _ H5), (keeps_run _ _ _ _ _ H4),
        (keeps_run _ _ _ _ _ H3), (keeps_run _ _ _ _ _ H2)
        by (LabFacts.blocks; frame). exact Hpassword.
    + rewrite (keeps_run _ _ _ _ _ H5), (keeps_run _ _ _ _ _ H4),
        (keeps_run _ _ _ _ _ H3) by (LabFacts.blocks; frame). exact Horigin.
    + by rewrite Hlevel5.
  - rewrite (keeps_run _ _ _ _ _ H5), (keeps_run _ _ _ _ _ H4),
      (keeps_run _ _ _ _ _ H3) by (LabFacts.blocks; frame).
    injection H2 as <-. cbn. lookups. discriminate.
Qed.

Lemma lab_defaults_agree_with_server_config_witness :
  cfg (jupyter_lab_config (host_with [ ("JUPYTER_ROOT_DIR", "/srv/work") ])
         empty_state).1 !! "ServerApp.port"
    = cfg (Server.jupyter_server_config empty_state).1 !! "ServerApp.port".
Proof.
  apply (lab_defaults_agree_with_server_config
           (host_with [ ("JUPYTER_ROOT_DIR", "/srv/work") ]) empty_state empty_state
           3600 2147483648 0).
  - intros name Hname.
    repeat (apply elem_of_cons in Hname as [-> | Hname]); try reflexivity.
    by apply elem_of_nil in Hname.
  - reflexivity.
  - reflexivity.
  - reflexivity.
  - set_solver.
Defined.

End LabBehaviour.

(** * The directory setup, further *)

Module SetupBehaviour.
Import Fs Lab FsFacts LabFacts.
Local Open Scope py_scope.

Lemma directories_eq home :
  directories home
  = [ "notebooks" :: home; "data" :: home; "projects" :: home;
      "custom" :: ".jupyter" :: home ].
Proof. reflexivity. Qed.

Lemma sample_notebook_eq home :
  sample_notebook home = "Welcome.ipynb" :: "notebooks" :: home.
Proof. reflexivity. Qed.

(** X10: when the setup ends normally, the home directory is known, the
    home directory, [.jupyter] and the four directories of the script are
    directories, and the sample notebook exists. *)
Theorem setup_success_postcondition (h : Host) (s s' : State) :
  setup_user_environment h s = (s', Ok tt) →
  ∃ home,
    home_dir h = Some home ∧
    Forall (fun d => is_dir (fs s') d = true)
      (home :: (".jupyter" :: home) :: directories home) ∧
    exists_ (fs s') (sample_notebook home) = true.
Proof.
  rewrite setup_unfold. destruct (home_dir h) as [home|]; [|done].
  destruct (for_each _ _ s) as [s1 [[]|e]] eqn:Hmake; [|done].
  destruct (make_all_result _ _ _ _ _ Hmake) as [_ Hdirs].
  assert (∀ t, Forall (fun d => is_dir t d = true) (directories home) →
               Forall (fun d => is_dir t d = true)
                 (home :: (".jupyter" :: home) :: directories home)) as Hall.
  { intros t Ht. pose proof Ht as Ht'. rewrite directories_eq in Ht.
    pose proof (Forall_inv Ht) as Hnotebooks.
    pose proof (Forall_inv (Forall_inv_tail (Forall_inv_tail (Forall_inv_tail Ht))))
      as Hcustom.
    apply is_dir_parent in Hnotebooks. apply is_dir_parent in Hcustom.
    constructor; [done |]. constructor; [done |]. exact Ht'. }
  destruct (exists_ (fs s1) (sample_notebook home)) eqn:Hthere.
  - intros [= <-]. exists home. by split_and!; [| apply Hall |].
  - destruct (write_file_absent h (sample_notebook home)
                (Json (welcome_content h home) 2) s1 Hthere)
      as [(s2 & Hwrite & Hext2 & Hfile) | (e & Hfail)].
    + rewrite Hwrite. intros [= <-]. exists home. split_and!; [done | |].
      * apply Hall. eapply Forall_impl; [exact Hdirs |]. intros d Hd.
        eapply is_dir_mono; [apply Hext2 | done].
      * by eapply exists_found.
    + by rewrite (Hfail h _ eq_refl).
Qed.

Lemma setup_success_postcondition_witness :
  ∃ home,
    home_dir (host_with []) = Some home ∧
    Forall (fun d => is_dir (fs (setup_user_environment (host_with [])
                                   state_with_notebook).1) d = true)
      (home :: (".jupyter" :: home) :: directories home) ∧
    exists_ (fs (setup_user_environment (host_with []) state_with_notebook).1)
      (sample_notebook home) = true.
Proof.
  apply (setup_success_postcondition (host_with []) state_with_notebook).
  apply run_eta. reflexivity.
Defined.

(** X11: however it ends, the setup only adds to the filesystem: every entry
    that was there is there unchanged, every path resolves as before, and
    the configuration object, the output and the log are untouched. *)
Theorem setup_only_adds (h : Host) (s : State) :
  fs s ⊆ fs (setup_user_environment h s).1 ∧
  (∀ p n, stat (fs s) p = Found n →
          stat (fs (setup_user_environment h s).1) p = Found n) ∧
  cfg (setup_user_environment h s).1 = cfg s ∧
  out (setup_user_environment h s).1 = out s ∧
  log (setup_user_environment h s).1 = log s.
Proof.
  assert (extends s (setup_user_environment h s).1) as (Hc & Ho & Hl & Hfs).
  { rewrite setup_unfold. destruct (home_dir h) as [home|]; [| apply extends_refl].
    destruct (for_each _ _ s) as [s1 [[]|e]] eqn:Hmake;
      destruct (make_all_result _ _ _ _ _ Hmake) as [Hext _]; [| done].
    destruct (exists_ (fs s1) (sample_notebook home)) eqn:Hthere; [done |].
    destruct (write_file_absent h (sample_notebook home)
                (Json (welcome_content h home) 2) s1 Hthere)
      as [(s2 & -> & Hext2 & _) | (e & Hfail)].
    - by eapply extends_trans.
    - by rewrite (Hfail h _ eq_refl). }
  split_and!; try done. intros p n. by apply stat_mono.
Qed.

Lemma setup_only_adds_witness :
  stat (fs (setup_user_environment (host_denying [ "data"; "jovyan"; "home" ])
              state_with_notebook).1) [ "notebooks"; "jovyan"; "home" ]
    = Found Dir.
Proof.
  apply (setup_only_adds (host_denying [ "data"; "jovyan"; "home" ])
           state_with_notebook).
  reflexivity.
Defined.

(** Where the directory operations write: at the path itself and at the
    paths above it, nowhere else. *)
Lemma os_mkdir_touches h p s s' r :
  os_mkdir h p s = (s', r) → ∀ q, q ≠ p → fs s' !! q = fs s !! q.
Proof.
  intros Hrun q Hq. pose proof (os_mkdir_outcome h p s) as Hout. rewrite Hrun in Hout.
  inversion Hout; subst; try done. cbn. by rewrite lookup_insert_ne.
Qed.

Lemma mkdir_here_touches h p s s' r :
  mkdir_here h p true s = (s', r) → ∀ q, q ≠ p → fs s' !! q = fs s !! q.
Proof.
  rewrite mkdir_here_unfold. intros Hrun q Hq.
  destruct (os_mkdir h p s) as [s1 [[]|e]] eqn:Hmk;
    pose proof (os_mkdir_touches _ _ _ _ _ Hmk q Hq) as Hsame.
  - by injection Hrun as <- <-.
  - destruct e as [| | | |k p']; try (by injection Hrun as <- <-).
    destruct k; try (by injection Hrun as <- <-);
      apply reraise_result in Hrun as [-> _]; done.
Qed.

Lemma mkdir_parents_touches h p : ∀ s s' r,
  mkdir_parents h p true s = (s', r) →
  ∀ q, (∀ l, p ≠ l ++ q) → fs s' !! q = fs s !! q.
Proof.
  induction p as [|name parent IH]; intros s s' r Hrun q Hq;
    rewrite mkdir_parents_unfold in Hrun.
  - assert (q ≠ []) as Hqp by (intros ->; by apply (Hq [])).
    destruct (os_mkdir h [] s) as [s1 [[]|e]] eqn:Hmk;
      pose proof (os_mkdir_touches _ _ _ _ _ Hmk q Hqp) as Hsame.
    + by injection Hrun as <- <-.
    + destruct e as [| | | |k p']; try (by injection Hrun as <- <-).
      destruct k; try (by injection Hrun as <- <-);
        apply reraise_result in Hrun as [-> _]; done.
  - assert (q ≠ name :: parent) as Hqp by (intros ->; by apply (Hq [])).
    destruct (os_mkdir h (name :: parent) s) as [s1 [[]|e]] eqn:Hmk;
      pose proof (os_mkdir_touches _ _ _ _ _ Hmk q Hqp) as Hsame.
    + by injection Hrun as <- <-.
    + destruct e as [| | | |k p']; try (by injection Hrun as <- <-).
      destruct k; try (by injection Hrun as <- <-);
        try (apply reraise_result in Hrun as [-> _]; done).
      unfold bind in Hrun.
      destruct (mkdir_parents h parent true s1) as [s2 [[]|e2]] eqn:Hrec.
      * rewrite (mkdir_here_touches _ _ _ _ _ Hrun) by done.
        rewrite (IH _ _ _ Hrec); [done |].
        intros l ->. by apply (Hq (name :: l)).
      * injection Hrun as <- <-. rewrite (IH _ _ _ Hrec); [done |].
        intros l ->. by apply (Hq (name :: l)).
Qed.

Lemma make_all_touches h l : ∀ s s' r,
  for_each l (fun d => mkdir_parents h d true) s = (s', r) →
  ∀ q, (∀ d front, d ∈ l → d ≠ front ++ q) → fs s' !! q = fs s !! q.
Proof.
  induction l as [|d rest IH]; intros s s' r Hrun q Hq; cbn [for_each] in Hrun.
  - by injection Hrun as <- <-.
  - unfold bind in Hrun.
    destruct (mkdir_parents h d true s) as [s1 [[]|e]] eqn:Hd.
    + rewrite (IH _ _ _ Hrun) by (intros d' front Hd'; apply Hq; by right).
      apply (mkdir_parents_touches _ _ _ _ _ Hd). intros front. apply Hq. by left.
    + injection Hrun as <- <-.
      apply (mkdir_parents_touches _ _ _ _ _ Hd). intros front. apply Hq. by left.
Qed.

Lemma notebook_not_above_directories home d front :
  d ∈ directories home → d ≠ front ++ sample_notebook home.
Proof.
  rewrite directories_eq, sample_notebook_eq. intros Hd Heq.
  apply (f_equal length) in Heq as Hlen. rewrite length_app in Hlen. cbn in Hlen.
  repeat (apply elem_of_cons in Hd as [-> | Hd]); cbn in Hlen; try lia.
  - destruct front; [discriminate | cbn in Hlen; lia].
  - by apply elem_of_nil in Hd.
Qed.

(** X12: when nothing stands at the path of the sample notebook and the
    setup ends normally, the notebook holds the welcome document built from
    this run's PYTHON_VERSION and home directory, written with indent 2. *)
Theorem setup_writes_fresh_notebook (h : Host) (s s' : State) (home : path) :
  home_dir h = Some home →
  fs s !! sample_notebook home = None →
  setup_user_environment h s = (s', Ok tt) →
  stat (fs s') (sample_notebook home)
    = Found (File (Json (welcome_content h home) 2)).
Proof.
  intros Hhome Hnone. rewrite setup_unfold, Hhome.
  destruct (for_each _ _ s) as [s1 [[]|e]] eqn:Hmake; [|done].
  assert (fs s1 !! sample_notebook home = None) as Hnone1.
  { rewrite (make_all_touches _ _ _ _ _ Hmake); [done |].
    intros d front. apply notebook_not_above_directories. }
  assert (exists_ (fs s1) (sample_notebook home) = false) as Hthere.
  { unfold exists_. rewrite sample_notebook_eq in *.
    change (stat (fs s1) ("Welcome.ipynb" :: "notebooks" :: home))
      with (match stat (fs s1) ("notebooks" :: home) with
            | Found Dir =>
                match fs s1 !! ("Welcome.ipynb" :: "notebooks" :: home) with
                | Some n => Found n
                | None => NoEntry
                end
            | Found (File _) => NotDir
            | NoEntry => NoEntry
            | NotDir => NotDir
            end).
    rewrite Hnone1. by destruct (stat (fs s1) ("notebooks" :: home)) as [[|b]| |]. }
  rewrite Hthere.
  destruct (write_file_absent h (sample_notebook home)
              (Json (welcome_content h home) 2) s1 Hthere)
    as [(s2 & -> & _ & Hfile) | (e & Hfail)].
  - by intros [= <-].
  - by rewrite (Hfail h _ eq_refl).
Qed.

Lemma setup_writes_fresh_notebook_witness :
  stat (fs (setup_user_environment (host_with [ ("PYTHON_VERSION", "3.9") ])
              empty_state).1) (sample_notebook [ "jovyan"; "home" ])
    = Found (File (Json (welcome_content (host_with [ ("PYTHON_VERSION", "3.9") ])
                           [ "jovyan"; "home" ]) 2)).
Proof.
  apply (setup_writes_fresh_notebook (host_with [ ("PYTHON_VERSION", "3.9") ])
           empty_state).
  - reflexivity.
  - reflexivity.
  - apply run_eta. reflexivity.
Defined.

Lemma no_file_on_parent t name parent :
  no_file_on t (name :: parent) → no_file_on t parent.
Proof. intros Hp front q body ->. by apply (Hp (name :: front)). Qed.

Lemma stat_clear t p : no_file_on t p → stat t p = Found Dir ∨ stat t p = NoEntry.
Proof.
  induction p as [|name parent IH]; intros Hclear; [by left |]. cbn.
  destruct (IH (no_file_on_parent _ _ _ Hclear)) as [-> | ->]; [| by right].
  destruct (t !! (name :: parent)) as [[|body]|] eqn:Hp; [by left | | by right].
  by destruct (Hclear [] (name :: parent) body eq_refl).
Qed.

Lemma os_mkdir_no_new_file h p s s' r :
  os_mkdir h p s = (s', r) →
  ∀ q body, fs s' !! q = Some (File body) → fs s !! q = Some (File body).
Proof.
  intros Hrun q body. pose proof (os_mkdir_outcome h p s) as Hout. rewrite Hrun in Hout.
  inversion Hout; subst; try done. cbn.
  destruct (decide ((name :: parent) = q)) as [<- | Hne].
  - by rewrite lookup_insert_eq.
  - by rewrite lookup_insert_ne.
Qed.

Lemma mkdir_here_no_new_file h p s s' r :
  mkdir_here h p true s = (s', r) →
  ∀ q body, fs s' !! q = Some (File body) → fs s !! q = Some (File body).
Proof.
  rewrite mkdir_here_unfold. intros Hrun q body.
  destruct (os_mkdir h p s) as [s1 [[]|e]] eqn:Hmk;
    pose proof (os_mkdir_no_new_file _ _ _ _ _ Hmk q body) as Hsame.
  - by injection Hrun as <- <-.
  - destruct e as [| | | |k p']; try (by injection Hrun as <- <-).
    destruct k; try (by injection Hrun as <- <-);
      apply reraise_result in Hrun as [-> _]; done.
Qed.

Lemma mkdir_parents_no_new_file h p : ∀ s s' r,
  mkdir_parents h p true s = (s', r) →
  ∀ q body, fs s' !! q = Some (File body) → fs s !! q = Some (File body).
Proof.
  induction p as [|name parent IH]; intros s s' r Hrun q body;
    rewrite mkdir_parents_unfold in Hrun;
    destruct (os_mkdir h _ s) as [s1 [[]|e]] eqn:Hmk;
    pose proof (os_mkdir_no_new_file _ _ _ _ _ Hmk q body) as Hsame;
    try (by injection Hrun as <- <-);
    (destruct e as [| | | |k p']; try (by injection Hrun as <- <-));
    (destruct k; try (by injection Hrun as <- <-);
     try (apply reraise_result in Hrun as [-> _]; done)).
  unfold bind in Hrun.
  destruct (mkdir_parents h parent true s1) as [s2 [[]|e2]] eqn:Hrec.
  - intros Hfile. apply Hsame. apply (IH _ _ _ Hrec).
    by apply (mkdir_here_no_new_file _ _ _ _ _ Hrun).
  - injection Hrun as <- <-. intros Hfile. apply Hsame. by apply (IH _ _ _ Hrec).
Qed.

Lemma mkdir_parents_clear h p :
  (∀ q, denied h q = false) →
  ∀ s, no_file_on (fs s) p → ∃ s', mkdir_parents h p true s = (s', Ok tt).
Proof.
  intros Hfree. induction p as [|name parent IH]; intros s Hclear.
  - exists s. by apply mkdir_parents_existing.
  - destruct (stat_clear _ _ Hclear) as [Hdir | Hmissing].
    { exists s. apply mkdir_parents_existing. unfold is_dir. by rewrite Hdir. }
    rewrite mkdir_parents_unfold. unfold os_mkdir.
    destruct (stat_clear _ _ (no_file_on_parent _ _ _ Hclear)) as [Hparent | Hparent];
      rewrite Hparent.
    + cbn in Hmissing. rewrite Hparent in Hmissing.
      destruct (fs s !! (name :: parent)) as [n|]; [done |]. rewrite Hfree. by eexists.
    + destruct (IH s (no_file_on_parent _ _ _ Hclear)) as (s1 & Hrec).
      unfold bind. rewrite Hrec.
      destruct (mkdir_parents_result _ _ _ _ _ Hrec) as [_ Hpdir].
      rewrite mkdir_here_unfold. unfold os_mkdir.
      unfold is_dir in Hpdir.
      destruct (stat (fs s1) parent) as [[|b]| |] eqn:Hparent1; try done.
      destruct (fs s1 !! (name :: parent)) as [[|body]|] eqn:Hp.
      * exists s1. unfold reraise_unless_dir, is_dir. cbn. by rewrite Hparent1, Hp.
      * apply (mkdir_parents_no_new_file _ _ _ _ _ Hrec) in Hp.
        by destruct (Hclear [] (name :: parent) body eq_refl).
      * rewrite Hfree. by eexists.
Qed.

Lemma make_all_clear h l :
  (∀ q, denied h q = false) →
  ∀ s, (∀ d, d ∈ l → no_file_on (fs s) d) →
       ∃ s', for_each l (fun d => mkdir_parents h d true) s = (s', Ok tt).
Proof.
  intros Hfree. induction l as [|d rest IH]; intros s Hclear; [by eexists |].
  cbn [for_each]. unfold bind.
  destruct (mkdir_parents_clear h d Hfree s (Hclear d ltac:(left))) as (s1 & Hd).
  rewrite Hd. apply IH. intros d' Hd' front q body Hq Hfile.
  apply (mkdir_parents_no_new_file _ _ _ _ _ Hd) in Hfile.
  by apply (Hclear d' ltac:(by right) front q body).
Qed.

(** X13: with the home directory known, no path refused, and no regular
    file standing at one of the four directories or above it, the setup ends
    normally. *)
Theorem setup_succeeds_when_way_is_clear (h : Host) (s : State) (home : path) :
  home_dir h = Some home →
  (∀ q, denied h q = false) →
  (∀ d, d ∈ directories home → no_file_on (fs s) d) →
  ∃ s', setup_user_environment h s = (s', Ok tt).
Proof.
  intros Hhome Hfree Hclear. rewrite setup_unfold, Hhome.
  destruct (make_all_clear h _ Hfree s Hclear) as (s1 & Hmake). rewrite Hmake.
  destruct (make_all_result _ _ _ _ _ Hmake) as [_ Hdirs].
  destruct (exists_ (fs s1) (sample_notebook home)) eqn:Hthere; [by eexists |].
  rewrite directories_eq in Hdirs. pose proof (Forall_inv Hdirs) as Hnotebooks.
  unfold exists_ in Hthere. rewrite sample_notebook_eq in *.
  unfold write_file. unfold is_dir in Hnotebooks.
  change (stat (fs s1) ("Welcome.ipynb" :: "notebooks" :: home))
    with (match stat (fs s1) ("notebooks" :: home) with
          | Found Dir =>
              match fs s1 !! ("Welcome.ipynb" :: "notebooks" :: home) with
              | Some n => Found n
              | None => NoEntry
              end
          | Found (File _) => NotDir
          | NoEntry => NoEntry
          | NotDir => NotDir
          end) in Hthere.
  destruct (stat (fs s1) ("notebooks" :: home)) as [[|b]| |]; try done.
  destruct (fs s1 !! ("Welcome.ipynb" :: "notebooks" :: home)); [done |].
  rewrite Hfree. by eexists.
Qed.

Lemma setup_succeeds_when_way_is_clear_witness :
  ∃ s', setup_user_environment (host_with []) empty_state = (s', Ok tt).
Proof.
  apply (setup_succeeds_when_way_is_clear (host_with []) empty_state [ "jovyan"; "home" ]).
  - reflexivity.
  - reflexivity.
  - intros d _ front q body _ Hfile. cbn in Hfile. by rewrite lookup_empty in Hfile.
Defined.

End SetupBehaviour.
